(** * Goa Sewa Connect: role routing, submission and application lifecycle

    A shallow embedding of the citizen-services portal:
    - the relational schema, the row-level security policies and the signup
      trigger of [supabase/migrations/20251003134111_*.sql];
    - the page handlers of [Index.tsx], [RoleSelector.tsx], [AuthGuard.tsx],
      [ApplyService.tsx], [OfficerDashboard.tsx] and [AdminDashboard.tsx],
      written as programs that issue backend requests one after the other.

    Part I holds the definitions, Part II the lemmas and theorems. *)

From Stdlib Require Import String Ascii List ZArith NArith Bool Lia.
From stdpp Require Import base strings gmap.
Import ListNotations.
Local Open Scope string_scope.
Local Open Scope list_scope.

(** * Part I: definitions *)

(** ** Basic data *)

(** Identifiers are the text of a [UUID] column; instants are counted in
    milliseconds; [DECIMAL(10, 2)] amounts are counted in hundredths. *)
Abbreviation uuid := string.
Abbreviation timestamp := N.
Abbreviation money := Z.

(** What a [DECIMAL(10, 2)] column holds: at most ten digits, two of them
    after the point, so less than 10^8 in absolute value, 10^10
    hundredths. A larger number is refused with a numeric field overflow. *)
Definition fits_decimal_10_2 (z : money) : bool := (Z.abs z <? 10 ^ 10)%Z.

Record decimal_10_2 : Type := {
  hundredths :> money;
  hundredths_fit : fits_decimal_10_2 hundredths = true
}.

(** [{ data, error }] of a backend call: the error carries its message. *)
Inductive result (A : Type) : Type :=
| Err (message : string)
| Ok (data : A).
Arguments Err {A} message.
Arguments Ok {A} data.

Definition is_ok {A} (r : result A) : bool :=
  match r with Ok _ => true | Err _ => false end.

(** [CREATE TYPE public.app_role AS ENUM ('citizen', 'officer', 'admin')] *)
Inductive app_role : Type := citizen | officer | admin.

(** [CREATE TYPE public.application_status AS ENUM (...)] *)
Inductive application_status : Type :=
| pending | under_review | approved | rejected | additional_info_required.

(** [CREATE TYPE public.payment_status AS ENUM (...)] *)
Inductive payment_status : Type :=
| payment_pending | payment_completed | payment_failed | payment_refunded.

Definition role_name (r : app_role) : string :=
  match r with
  | citizen => "citizen"
  | officer => "officer"
  | admin => "admin"
  end.

Definition status_name (s : application_status) : string :=
  match s with
  | pending => "pending"
  | under_review => "under_review"
  | approved => "approved"
  | rejected => "rejected"
  | additional_info_required => "additional_info_required"
  end.

(** Input conversion of an enum column: a label outside the enum is an
    error of the statement. *)
Definition parse_status (s : string) : option application_status :=
  if s =? "pending" then Some pending
  else if s =? "under_review" then Some under_review
  else if s =? "approved" then Some approved
  else if s =? "rejected" then Some rejected
  else if s =? "additional_info_required" then Some additional_info_required
  else None.

Definition parse_payment_status (s : string) : option payment_status :=
  if s =? "pending" then Some payment_pending
  else if s =? "completed" then Some payment_completed
  else if s =? "failed" then Some payment_failed
  else if s =? "refunded" then Some payment_refunded
  else None.

Definition parse_role (s : string) : option app_role :=
  if s =? "citizen" then Some citizen
  else if s =? "officer" then Some officer
  else if s =? "admin" then Some admin
  else None.

Definition role_eqb (a b : app_role) : bool :=
  match a, b with
  | citizen, citizen | officer, officer | admin, admin => true
  | _, _ => false
  end.

(** ** Schema (the columns the pages and policies read or write) *)

(** A row of [auth.users] as the signup trigger sees it: [NEW.id],
    [NEW.email] and [NEW.raw_user_meta_data->>'full_name']. *)
Record auth_user : Type := {
  au_id : uuid;
  au_email : option string;
  au_full_name : option string
}.

Record profile : Type := {
  profile_id : uuid;
  profile_email : string;
  profile_phone : option string;
  profile_full_name : string
}.

Record user_role : Type := {
  ur_user_id : uuid;
  ur_role : app_role
}.

Record service : Type := {
  service_id : uuid;
  service_name : string;
  fee : decimal_10_2;
  required_documents : list string;
  is_active : bool
}.

Record application : Type := {
  app_id : uuid;
  citizen_id : uuid;
  app_service_id : uuid;
  officer_id : option uuid;
  status : application_status;
  remarks : option string;
  applied_on : timestamp;
  completed_on : option timestamp;
  updated_at : timestamp
}.

Record document : Type := {
  doc_application_id : uuid;
  doc_file_name : string;
  doc_file_url : string;
  doc_type : string;
  uploaded_at : timestamp
}.

Record payment : Type := {
  pay_application_id : uuid;
  transaction_id : option string;
  amount : money;
  pay_status : payment_status;
  payment_method : option string;
  paid_at : option timestamp
}.

(** A browser [File]: its name and its bytes. *)
Record file : Type := {
  file_name : string;
  file_bytes : string
}.

(** The relational state and the ['application-documents'] bucket. *)
Record database : Type := {
  auth_users : list auth_user;
  profiles : list profile;
  user_roles : list user_role;
  services : list service;
  applications : list application;
  documents : list document;
  payments : list payment;
  storage_objects : list (string * file)
}.

Definition empty_database : database :=
  {| auth_users := []; profiles := []; user_roles := []; services := [];
     applications := []; documents := []; payments := [];
     storage_objects := [] |}.

Definition set_auth_users (v : list auth_user) (d : database) : database :=
  {| auth_users := v; profiles := profiles d; user_roles := user_roles d;
     services := services d; applications := applications d;
     documents := documents d; payments := payments d;
     storage_objects := storage_objects d |}.

Definition set_profiles (v : list profile) (d : database) : database :=
  {| auth_users := auth_users d; profiles := v; user_roles := user_roles d;
     services := services d; applications := applications d;
     documents := documents d; payments := payments d;
     storage_objects := storage_objects d |}.

Definition set_user_roles (v : list user_role) (d : database) : database :=
  {| auth_users := auth_users d; profiles := profiles d; user_roles := v;
     services := services d; applications := applications d;
     documents := documents d; payments := payments d;
     storage_objects := storage_objects d |}.


Definition set_applications (v : list application) (d : database) : database :=
  {| auth_users := auth_users d; profiles := profiles d;
     user_roles := user_roles d; services := services d; applications := v;
     documents := documents d; payments := payments d;
     storage_objects := storage_objects d |}.

Definition set_documents (v : list document) (d : database) : database :=
  {| auth_users := auth_users d; profiles := profiles d;
     user_roles := user_roles d; services := services d;
     applications := applications d; documents := v; payments := payments d;
     storage_objects := storage_objects d |}.

Definition set_payments (v : list payment) (d : database) : database :=
  {| auth_users := auth_users d; profiles := profiles d;
     user_roles := user_roles d; services := services d;
     applications := applications d; documents := documents d; payments := v;
     storage_objects := storage_objects d |}.

Definition set_storage_objects (v : list (string * file)) (d : database)
  : database :=
  {| auth_users := auth_users d; profiles := profiles d;
     user_roles := user_roles d; services := services d;
     applications := applications d; documents := documents d;
     payments := payments d; storage_objects := v |}.

(** ** Row-level security *)

(** [auth.uid() = col]: false for an anonymous caller ([auth.uid()] is
    [NULL]). *)
Definition uid_is (uid : option uuid) (col : uuid) : bool :=
  match uid with
  | Some u => u =? col
  | None => false
  end.

(** [public.has_role(_user_id, _role)] *)
Definition has_role (d : database) (_user_id : option uuid) (_role : app_role)
  : bool :=
  match _user_id with
  | Some u =>
      existsb (fun r => (ur_user_id r =? u) && role_eqb (ur_role r) _role)
              (user_roles d)
  | None => false
  end.

Definition officer_or_admin (d : database) (uid : option uuid) : bool :=
  has_role d uid officer || has_role d uid admin.

(** ["Users can view their own roles"] *)
Definition user_roles_select_policy (uid : option uuid) (r : user_role)
  : bool :=
  uid_is uid (ur_user_id r).

(** ["Citizens can view their own applications"] or
    ["Officers can view all applications"]: permissive policies of one
    command are joined by OR. *)
Definition applications_select_policy (d : database) (uid : option uuid)
  (row : application) : bool :=
  uid_is uid (citizen_id row) || officer_or_admin d uid.

(** ["Citizens can create applications"] *)
Definition applications_insert_check (uid : option uuid) (row : application)
  : bool :=
  uid_is uid (citizen_id row).

(** ["Officers can update applications"] *)
Definition applications_update_using (d : database) (uid : option uuid)
  (row : application) : bool :=
  officer_or_admin d uid.

(** The rows of [applications] a caller's statement can see. *)
Definition select_applications (d : database) (uid : option uuid)
  : list application :=
  List.filter (applications_select_policy d uid) (applications d).

(** [EXISTS (SELECT 1 FROM public.applications WHERE applications.id = _
    AND applications.citizen_id = auth.uid())]; the sub-select runs as the
    caller, hence over the rows the caller can see. *)
Definition owns_application (d : database) (uid : option uuid)
  (application_id : uuid) : bool :=
  existsb (fun a => (app_id a =? application_id) && uid_is uid (citizen_id a))
          (select_applications d uid).

(** ["Citizens can insert documents for their applications"] *)
Definition documents_insert_check (d : database) (uid : option uuid)
  (row : document) : bool :=
  owns_application d uid (doc_application_id row).

(** ["Citizens can view documents for their applications"] or
    ["Officers can view all documents"] *)
Definition documents_select_policy (d : database) (uid : option uuid)
  (row : document) : bool :=
  owns_application d uid (doc_application_id row) || officer_or_admin d uid.

(** ["Citizens can create payments for their applications"] *)
Definition payments_insert_check (d : database) (uid : option uuid)
  (row : payment) : bool :=
  owns_application d uid (pay_application_id row).

(** ** Text helpers *)

(** [s.split(c)] for a one-character separator [c]: never empty. *)
Fixpoint split_on (c : ascii) (s : string) : list string :=
  match s with
  | EmptyString => [EmptyString]
  | String a s' =>
      if Ascii.eqb a c then EmptyString :: split_on c s'
      else match split_on c s' with
           | h :: t => String a h :: t
           | [] => [String a EmptyString]
           end
  end.

(** [parts.pop()] inside a template literal: the last element, and the text
    ["undefined"] for an empty array. *)
Definition pop_text (parts : list string) : string :=
  List.last parts "undefined".

(** [parts.join(sep)] *)
Definition join (sep : string) (parts : list string) : string :=
  String.concat sep parts.

(** [(storage.foldername(name))[1]]: the first of the path's folders (all
    segments but the last), [NULL] when there is none. *)
Definition first_folder (name : string) : option string :=
  match split_on "/" name with
  | seg :: _ :: _ => Some seg
  | _ => None
  end.

(** ** Statements, as the backend executes them for a caller *)

(** The object the officer dashboard sends to [update]: [status] and
    [remarks] are always present ([remarks] may be [null]); [completed_on]
    is a key of the object only on some paths. *)
Inductive column (A : Type) : Type :=
| unchanged
| assign (a : A).
Arguments unchanged {A}.
Arguments assign {A} a.

Record update_data : Type := {
  upd_status : string;
  upd_remarks : option string;
  upd_completed_on : column timestamp
}.

Definition select_user_roles (d : database) (uid : option uuid)
  (user_id : uuid) : list app_role :=
  map ur_role
      (List.filter
         (fun r => user_roles_select_policy uid r && (ur_user_id r =? user_id))
         (user_roles d)).

(** [INSERT INTO applications (citizen_id, service_id, status)]; the other
    columns take their defaults. [new_id] is the value of
    [gen_random_uuid()], [now] that of [NOW()]. *)
Definition insert_application (d : database) (uid : option uuid)
  (now : timestamp) (new_id : uuid) (citizen_ service_ : uuid)
  (status_ : string) : result application * database :=
  match parse_status status_ with
  | None => (Err "invalid input value for enum application_status", d)
  | Some st =>
      let row :=
        {| app_id := new_id; citizen_id := citizen_; app_service_id := service_;
           officer_id := None; status := st; remarks := None;
           applied_on := now; completed_on := None; updated_at := now |} in
      if negb (applications_insert_check uid row) then
        (Err "new row violates row-level security policy", d)
      else if negb (existsb (fun u => au_id u =? citizen_) (auth_users d)) then
        (Err "violates foreign key constraint applications_citizen_id_fkey", d)
      else if negb (existsb (fun s => service_id s =? service_) (services d))
      then
        (Err "violates foreign key constraint applications_service_id_fkey", d)
      else if existsb (fun a => app_id a =? new_id) (applications d) then
        (Err "duplicate key value violates unique constraint", d)
      else (Ok row, set_applications (applications d ++ [row]) d)
  end.

(** The row after [UPDATE applications SET ...]: the trigger
    [update_applications_updated_at] stamps [updated_at]. *)
Definition apply_update (now : timestamp) (st : application_status)
  (u : update_data) (row : application) : application :=
  {| app_id := app_id row; citizen_id := citizen_id row;
     app_service_id := app_service_id row; officer_id := officer_id row;
     status := st; remarks := upd_remarks u; applied_on := applied_on row;
     completed_on :=
       match upd_completed_on u with
       | assign t => Some t
       | unchanged => completed_on row
       end;
     updated_at := now |}.

(** [UPDATE applications SET ... WHERE id = _]: rows the update policy does
    not admit are silently left alone. *)
Definition update_application (d : database) (uid : option uuid)
  (now : timestamp) (id : uuid) (u : update_data)
  : result unit * database :=
  match parse_status (upd_status u) with
  | None => (Err "invalid input value for enum application_status", d)
  | Some st =>
      (Ok tt,
       set_applications
         (map (fun row =>
                 if (app_id row =? id) && applications_update_using d uid row
                 then apply_update now st u row else row)
              (applications d)) d)
  end.

(** [INSERT INTO documents (application_id, file_name, file_url, doc_type)] *)
Definition insert_document (d : database) (uid : option uuid)
  (now : timestamp) (application_id : uuid) (name url type_ : string)
  : result unit * database :=
  let row :=
    {| doc_application_id := application_id; doc_file_name := name;
       doc_file_url := url; doc_type := type_; uploaded_at := now |} in
  if documents_insert_check d uid row
  then (Ok tt, set_documents (documents d ++ [row]) d)
  else (Err "new row violates row-level security policy", d).

(** [INSERT INTO payments (application_id, amount, status, payment_method,
    paid_at)]. The values are converted to the types of their columns,
    [amount] to DECIMAL(10, 2) and [status] to the enum, before the policy
    is checked on the new row. *)
Definition insert_payment (d : database) (uid : option uuid)
  (application_id : uuid) (amount_ : money) (status_ method : string)
  (paid : timestamp) : result unit * database :=
  if negb (fits_decimal_10_2 amount_) then (Err "numeric field overflow", d)
  else
    match parse_payment_status status_ with
    | None => (Err "invalid input value for enum payment_status", d)
    | Some st =>
        let row :=
          {| pay_application_id := application_id; transaction_id := None;
             amount := amount_; pay_status := st;
             payment_method := Some method; paid_at := Some paid |} in
        if payments_insert_check d uid row
        then (Ok tt, set_payments (payments d ++ [row]) d)
        else (Err "new row violates row-level security policy", d)
    end.

(** [storage.from('application-documents').upload(path, file)]: the insert
    policy wants the first folder of the path to be the caller's
    identifier; an existing object is not overwritten. *)
Definition storage_upload (d : database) (uid : option uuid) (path : string)
  (f : file) : result unit * database :=
  match uid, first_folder path with
  | Some u, Some seg =>
      if negb (u =? seg) then
        (Err "new row violates row-level security policy", d)
      else if existsb (fun o => fst o =? path) (storage_objects d) then
        (Err "The resource already exists", d)
      else (Ok tt, set_storage_objects (storage_objects d ++ [(path, f)]) d)
  | _, _ => (Err "new row violates row-level security policy", d)
  end.

(** [public.handle_new_user()], run AFTER INSERT ON [auth.users] with
    [NEW := u]; SECURITY DEFINER, so no policy applies. A violated
    constraint raises, which aborts the enclosing statement. *)
Definition handle_new_user (d : database) (u : auth_user) : result database :=
  match au_email u with
  | None => Err "null value in column email violates not-null constraint"
  | Some email =>
      if existsb (fun p => profile_id p =? au_id u) (profiles d) then
        Err "duplicate key value violates unique constraint profiles_pkey"
      else
        let d1 :=
          set_profiles
            (profiles d ++
             [{| profile_id := au_id u; profile_email := email;
                 profile_phone := None;
                 profile_full_name :=
                   match au_full_name u with
                   | Some n => n
                   | None => "User"
                   end |}]) d in
        if existsb (fun r => (ur_user_id r =? au_id u)
                             && role_eqb (ur_role r) citizen) (user_roles d1)
        then Err "duplicate key value violates unique constraint"
        else
          Ok (set_user_roles
                (user_roles d1 ++ [{| ur_user_id := au_id u;
                                      ur_role := citizen |}]) d1)
  end.

(** Account creation: the insert into [auth.users] together with its
    trigger, as one statement. On an error nothing of it is kept. *)
Definition signup (d : database) (u : auth_user) : result unit * database :=
  if existsb (fun v => au_id v =? au_id u) (auth_users d) then
    (Err "duplicate key value violates unique constraint users_pkey", d)
  else
    match handle_new_user (set_auth_users (auth_users d ++ [u]) d) u with
    | Err e => (Err e, d)
    | Ok d' => (Ok tt, d')
    end.

(** ** Client-side values *)

(** A plain JavaScript object used as a dictionary, given by its own
    enumerable properties in the order [Object.entries] lists them. A
    well-formed object has each key once. *)
Definition js_object (V : Type) : Type := list (string * V).

Definition own_keys {V} (o : js_object V) : list string := map fst o.

Fixpoint own_property {V} (o : js_object V) (k : string) : option V :=
  match o with
  | [] => None
  | (k', v) :: o' => if k' =? k then Some v else own_property o' k
  end.

(** The property names every plain object inherits from
    [Object.prototype]; reading one of them on an object without such an
    own property gives a function (for [__proto__], the prototype), which
    is truthy. *)
Definition object_prototype_names : list string :=
  ["constructor"; "hasOwnProperty"; "isPrototypeOf"; "propertyIsEnumerable";
   "toLocaleString"; "toString"; "valueOf"; "__proto__";
   "__defineGetter__"; "__defineSetter__"; "__lookupGetter__";
   "__lookupSetter__"].

Definition inherited (k : string) : bool :=
  existsb (fun n => n =? k) object_prototype_names.

(** [!files[doc]] for [files : { [key: string]: File }]: a [File] is
    truthy, and so is what an inherited name reads. *)
Definition not_files (files : js_object file) (doc : string) : bool :=
  match own_property files doc with
  | Some _ => false
  | None => negb (inherited doc)
  end.

(** [text || fallback] on strings: the empty string is falsy. *)
Definition or_text (text fallback : string) : string :=
  if text =? "" then fallback else text.

(** [remarks[appId] || null] for [remarks : { [key: string]: string }]
    keyed by application identifiers (UUID text, never an inherited name):
    an absent key reads [undefined]. *)
Definition or_null (field : option string) : option string :=
  match field with
  | Some text => if text =? "" then None else Some text
  | None => None
  end.

(** [interface Stats] of the admin dashboard. [totalRevenue], a sum of
    floating-point numbers, is left out. *)
Record Stats : Type := {
  totalApplications : nat;
  pendingApplications : nat;
  approvedApplications : nat;
  rejectedApplications : nat;
  totalCitizens : nat
}.

(** What a handler does to the page: navigation, notifications and calls of
    the state setters, in the order they happen. Console logging is left
    out. *)
Inductive ui_action : Type :=
| navigate (path : string)
| toast_error (text : string)
| toast_success (text : string)
| setLoading (b : bool)
| setSubmitting (b : bool)
| setProcessingId (id : option uuid)
| setRemarks (appId : uuid) (text : string)
| setRoles (roles : list string)
| setUser (user : option uuid)
| setHasRole (b : bool)
| setStats (s : Stats)
| fetchApplications.

(** A row of [from("applications").select("status, services(fee)")]. *)
Record stats_row : Type := {
  row_status : application_status;
  row_fee : option money
}.

(** ** Backend requests *)

(** The calls the pages make through the [supabase] client. *)
Inductive op : Type :=
| getSession
| getUser
| select_roles (user_id : uuid)
| select_role (user_id : uuid) (role : string)
| insert_application_op (citizen_ service_ : uuid) (status_ : string)
| upload (path : string) (f : file)
| insert_document_op (application_id : uuid) (name url type_ : string)
| insert_payment_op (application_id : uuid) (amount_ : money)
    (status_ method : string) (paid : timestamp)
| update_application_op (id : uuid) (u : update_data)
| select_application_stats
| count_citizens.

(** What each call resolves to. *)
Definition resp (o : op) : Type :=
  match o with
  | getSession | getUser => option uuid
  | select_roles _ => result (list app_role)
  | select_role _ _ => result (option app_role)
  | insert_application_op _ _ _ => result application
  | upload _ _ | insert_document_op _ _ _ _ | insert_payment_op _ _ _ _ _
  | update_application_op _ _ => result unit
  | select_application_stats => result (list stats_row)
  | count_citizens => result (option nat)
  end.

(** Requests that change nothing at the backend. *)
Definition is_read (o : op) : bool :=
  match o with
  | getSession | getUser | select_roles _ | select_role _ _
  | select_application_stats | count_citizens => true
  | _ => false
  end.

(** An [async] handler: it returns, or awaits a request and goes on with
    what the request resolved to. *)
Inductive prog (A : Type) : Type :=
| Ret (a : A)
| Call (o : op) (k : resp o -> prog A).
Arguments Ret {A} a.
Arguments Call {A} o k.

(** One awaited request with what it resolved to. *)
Definition event : Type := { o : op & resp o }.

Definition ev_op (e : event) : op := projT1 e.

(** Did the request succeed? For [getUser] and [getSession]: is there a
    user? *)
Definition ev_ok (e : event) : bool :=
  match e with
  | existT o r =>
      match o return resp o -> bool with
      | getSession | getUser => fun r => match r with Some _ => true
                                                 | None => false end
      | select_roles _ => is_ok
      | select_role _ _ => is_ok
      | insert_application_op _ _ _ => is_ok
      | upload _ _ => is_ok
      | insert_document_op _ _ _ _ => is_ok
      | insert_payment_op _ _ _ _ _ => is_ok
      | update_application_op _ _ => is_ok
      | select_application_stats => is_ok
      | count_citizens => is_ok
      end r
  end.

Section Run.
Context {S A : Type}.
(** Any backend: a state and its answer to each request. *)
Variable exec : forall o : op, S -> resp o * S.

(** Runs a handler: its result, the backend state it leaves and the
    requests it awaited, first to last. *)
Fixpoint run (p : prog A) (s : S) : A * S * list event :=
  match p with
  | Ret a => (a, s, [])
  | Call o k =>
      let (r, s1) := exec o s in
      let '(a, s2, tr) := run (k r) s1 in
      (a, s2, existT o r :: tr)
  end.
End Run.

(** ** [Index.tsx] *)

(** The [switch (roles[0])] of [checkAuth]. *)
Definition dashboard_of (role : string) : string :=
  if role =? "citizen" then "/citizen"
  else if role =? "officer" then "/officer"
  else if role =? "admin" then "/admin"
  else "/auth".

(** The branch on [roles.length]. *)
Definition route_by_roles (roles : list string) : string :=
  if (length roles =? 0)%nat then "/auth"
  else if (length roles =? 1)%nat then dashboard_of (nth 0 roles "undefined")
  else "/select-role".

(** [checkAuth]: without a session it returns before the [try]; a failed
    role query leaves [userRoles] null. *)
Definition checkAuth : prog (list ui_action) :=
  Call getSession (fun session =>
    match session with
    | None => Ret [navigate "/auth"]
    | Some user_id =>
        Call (select_roles user_id) (fun userRoles =>
          let roles :=
            match userRoles with
            | Ok rows => map role_name rows
            | Err _ => []
            end in
          Ret [navigate (route_by_roles roles); setLoading false])
    end).

(** ** [RoleSelector.tsx] *)

Definition redirectToRole (role : string) : list ui_action :=
  if role =? "citizen" then [navigate "/"]
  else if role =? "officer" then [navigate "/officer"]
  else if role =? "admin" then [navigate "/admin"]
  else [toast_error "Invalid role"].

Definition checkUserRoles : prog (list ui_action) :=
  Call getUser (fun user =>
    match user with
    | None => Ret [navigate "/auth"; setLoading false]
    | Some user_id =>
        Call (select_roles user_id) (fun userRoles =>
          match userRoles with
          | Err _ =>
              Ret [toast_error "Failed to check user roles"; setLoading false]
          | Ok rows =>
              let rolesList := map role_name rows in
              if (length rolesList =? 0)%nat then
                Ret [toast_error
                       "No role assigned. Please contact administrator.";
                     setLoading false]
              else
                Ret (setRoles rolesList
                     :: (if (length rolesList =? 1)%nat
                         then redirectToRole (nth 0 rolesList "undefined")
                         else [])
                     ++ [setLoading false])
          end)
    end).

(** The cards the selector renders, one for each of the three roles that
    [roles.includes]; clicking a card calls [redirectToRole] with its
    role. *)
Definition selector_cards (roles : list string) : list string :=
  List.filter (fun card => existsb (fun r => r =? card) roles)
              ["citizen"; "officer"; "admin"].

(** ** [AuthGuard] *)

(** The session effect followed by [checkRole] for the user it found. The
    subscription to later session changes is left out. *)
Definition authGuard (requiredRole : option string) : prog (list ui_action) :=
  Call getSession (fun session =>
    match session with
    | None => Ret [setUser None; navigate "/auth"; setLoading false]
    | Some user_id =>
        match requiredRole with
        | None => Ret [setUser (Some user_id); setHasRole true;
                       setLoading false]
        | Some role =>
            Call (select_role user_id role) (fun r =>
              match r with
              | Err _ => Ret [setUser (Some user_id); navigate "/";
                              setLoading false]
              | Ok None => Ret [setUser (Some user_id); navigate "/";
                                setLoading false]
              | Ok (Some _) => Ret [setUser (Some user_id); setHasRole true;
                                    setLoading false]
              end)
        end
    end).

(** ** [App.tsx]: the route table *)

Inductive page : Type :=
| Index
| Auth
| CitizenDashboard
| OfficerDashboard
| AdminDashboard
| ApplyService (serviceId : string)
| RoleSelector
| NotFound.

(** The text after ["/apply/"] when the path is [/apply/:serviceId] with a
    non-empty parameter. *)
Definition apply_param (path : string) : option string :=
  match split_on "/" path with
  | ["" ; "apply" ; id] => if id =? "" then None else Some id
  | _ => None
  end.

Definition route (path : string) : page :=
  if path =? "/" then Index
  else if path =? "/auth" then Auth
  else if path =? "/citizen" then CitizenDashboard
  else if path =? "/officer" then OfficerDashboard
  else if path =? "/admin" then AdminDashboard
  else if path =? "/select-role" then RoleSelector
  else match apply_param path with
       | Some id => ApplyService id
       | None => NotFound
       end.

(** What a page does when it is shown, as far as navigation goes. [Auth]
    and [NotFound] are not among the modelled files: they are taken to
    stay where they are. *)
Definition on_mount (p : page) : prog (list ui_action) :=
  match p with
  | Index => checkAuth
  | RoleSelector => checkUserRoles
  | CitizenDashboard => authGuard (Some "citizen")
  | OfficerDashboard => authGuard (Some "officer")
  | AdminDashboard => authGuard (Some "admin")
  | ApplyService _ => authGuard (Some "citizen")
  | Auth | NotFound => Ret []
  end.

(** The path a handler navigated to, if it did. *)
Fixpoint navigated (acts : list ui_action) : option string :=
  match acts with
  | [] => None
  | navigate path :: rest =>
      match navigated rest with
      | Some later => Some later
      | None => Some path
      end
  | _ :: rest => navigated rest
  end.

Section Land.
Context {S : Type}.
Variable exec : forall o : op, S -> resp o * S.

(** Follows the redirects from [path] until a page stays put: the path
    the user ends on, or [None] when [fuel] redirects were not enough. *)
Fixpoint land (fuel : nat) (path : string) (s : S) : option string :=
  match fuel with
  | O => None
  | Datatypes.S fuel' =>
      let '(acts, s', _) := run exec (on_mount (route path)) s in
      match navigated acts with
      | Some next => land fuel' next s'
      | None => Some path
      end
  end.
End Land.

(** ** [ApplyService.tsx] *)

(** [service.required_documents.filter(doc => !files[doc])] *)
Definition missingDocs (svc : service) (files : js_object file)
  : list string :=
  List.filter (not_files files) (required_documents svc).

(** [file.name.split(".").pop()] *)
Definition fileExt (f : file) : string :=
  pop_text (split_on "." (file_name f)).

(** [`${user.id}/${application.id}/${docType}.${fileExt}`] *)
Definition fileName (user_id application_id docType : string) (f : file)
  : string :=
  user_id +:+ "/" +:+ application_id +:+ "/" +:+ docType +:+ "."
  +:+ fileExt f.

(** The [catch] and [finally] of [handleSubmit]. *)
Definition submit_failed (message : string) : list ui_action :=
  [setSubmitting true;
   toast_error (or_text message "Failed to submit application");
   setSubmitting false].

(** The loop [for (const [docType, file] of Object.entries(files))]: an
    upload and then a document record for each entry, stopping at the first
    error; [next] is what follows the loop. [getPublicUrl] is the client
    library's pure mapping from a bucket path to its address. *)
Fixpoint upload_documents (getPublicUrl : string -> string)
  (user_id application_id : uuid) (entries : js_object file)
  (next : prog (list ui_action)) : prog (list ui_action) :=
  match entries with
  | [] => next
  | (docType, f) :: rest =>
      let name := fileName user_id application_id docType f in
      Call (upload name f) (fun uploaded =>
        match uploaded with
        | Err uploadError => Ret (submit_failed uploadError)
        | Ok _ =>
            Call (insert_document_op application_id (file_name f)
                    (getPublicUrl name) docType) (fun inserted =>
              match inserted with
              | Err docError => Ret (submit_failed docError)
              | Ok _ =>
                  upload_documents getPublicUrl user_id application_id rest
                                   next
              end)
        end)
  end.

(** [handleSubmit]; [now] is the instant [new Date()] reads for
    [paid_at]. *)
Definition handleSubmit (getPublicUrl : string -> string) (now : timestamp)
  (svc : option service) (files : js_object file) : prog (list ui_action) :=
  match svc with
  | None => Ret []
  | Some svc =>
      if (0 <? length (missingDocs svc files))%nat then
        Ret [toast_error
               ("Please upload: " +:+ join ", " (missingDocs svc files))]
      else
        Call getUser (fun user =>
          match user with
          | None => Ret (submit_failed "Not authenticated")
          | Some user_id =>
              Call (insert_application_op user_id (service_id svc) "pending")
                (fun created =>
                  match created with
                  | Err appError => Ret (submit_failed appError)
                  | Ok app =>
                      upload_documents getPublicUrl user_id (app_id app) files
                        (Call (insert_payment_op (app_id app) (fee svc)
                                 "completed" "mock" now) (fun paid =>
                           match paid with
                           | Err paymentError =>
                               Ret (submit_failed paymentError)
                           | Ok _ =>
                               Ret [setSubmitting true;
                                    toast_success
                                      "Application submitted successfully!";
                                    navigate "/";
                                    setSubmitting false]
                           end))
                  end)
          end)
  end.

(** ** [OfficerDashboard.tsx] *)

(** The object [updateData] of [handleUpdateStatus]; [now] is the instant
    [new Date()] reads. *)
Definition updateData (remarks_ : gmap string string) (now : timestamp)
  (appId newStatus : string) : update_data :=
  {| upd_status := newStatus;
     upd_remarks := or_null (remarks_ !! appId);
     upd_completed_on :=
       if (newStatus =? "approved") || (newStatus =? "rejected")
       then assign now else unchanged |}.

Definition handleUpdateStatus (remarks_ : gmap string string)
  (now : timestamp) (appId newStatus : string) : prog (list ui_action) :=
  Call (update_application_op appId (updateData remarks_ now appId newStatus))
    (fun r =>
       match r with
       | Err _ =>
           Ret [setProcessingId (Some appId);
                toast_error "Failed to update application";
                setProcessingId None]
       | Ok _ =>
           Ret [setProcessingId (Some appId);
                toast_success ("Application " +:+ newStatus);
                fetchApplications;
                setRemarks appId "";
                setProcessingId None]
       end).

(** The [remarks] state after the setter calls of a handler:
    [setRemarks(prev => ({ ...prev, [appId]: text }))]. *)
Definition remarks_after (acts : list ui_action)
  (remarks_ : gmap string string) : gmap string string :=
  fold_left (fun m act =>
               match act with
               | setRemarks appId text => <[appId := text]> m
               | _ => m
               end) acts remarks_.

(** The two buttons of a card, rendered only while [app.status ===
    "pending"]. *)
Definition card_buttons (row_status_ : string) : list string :=
  if row_status_ =? "pending" then ["approved"; "rejected"] else [].

(** ** [AdminDashboard.tsx] *)

(** [applications.filter(a => a.status === label).length] *)
Definition count_status (label : string) (apps : list stats_row) : nat :=
  length (List.filter (fun a => status_name (row_status a) =? label) apps).

Definition stats_of (apps : list stats_row) (citizenCount : option nat)
  : Stats :=
  {| totalApplications := length apps;
     pendingApplications := count_status "pending" apps;
     approvedApplications := count_status "approved" apps;
     rejectedApplications := count_status "rejected" apps;
     totalCitizens := match citizenCount with Some n => n | None => 0%nat end
  |}.

Definition fetchStats : prog (list ui_action) :=
  Call select_application_stats (fun r =>
    match r with
    | Err _ => Ret [toast_error "Failed to load statistics"; setLoading false]
    | Ok apps =>
        Call count_citizens (fun c =>
          match c with
          | Err _ =>
              Ret [toast_error "Failed to load statistics"; setLoading false]
          | Ok citizenCount =>
              Ret [setStats (stats_of apps citizenCount); setLoading false]
          end)
    end).

(** ** The hosted backend *)

(** The database, the session of the browser talking to it, the value of
    [NOW()], and the identifiers [gen_random_uuid()] is going to draw. *)
Record backend : Type := {
  be_db : database;
  be_session : option uuid;
  be_now : timestamp;
  be_uuids : nat -> uuid;
  be_drawn : nat
}.

Definition with_db (b : backend) (d : database) : backend :=
  {| be_db := d; be_session := be_session b; be_now := be_now b;
     be_uuids := be_uuids b; be_drawn := be_drawn b |}.

Definition draw_uuid (b : backend) : backend :=
  {| be_db := be_db b; be_session := be_session b; be_now := be_now b;
     be_uuids := be_uuids b; be_drawn := Datatypes.S (be_drawn b) |}.

(** ["Anyone can view active services"] *)
Definition services_select_policy (d : database) (uid : option uuid)
  (s : service) : bool :=
  is_active s || has_role d uid admin.

(** The embedded [services(fee)] of a row: null when the service is not
    visible to the caller. *)
Definition joined_fee (d : database) (uid : option uuid) (a : application)
  : option money :=
  match List.filter (fun s => services_select_policy d uid s
                              && (service_id s =? app_service_id a))
                    (services d) with
  | s :: _ => Some (hundredths (fee s))
  | [] => None
  end.

(** [.maybeSingle()] *)
Definition maybeSingle {A} (rows : list A) : result (option A) :=
  match rows with
  | [] => Ok None
  | [row] => Ok (Some row)
  | _ => Err "JSON object requested, multiple (or no) rows returned"
  end.

Definition supabase (o : op) (b : backend) : resp o * backend :=
  match o return resp o * backend with
  | getSession => (be_session b, b)
  | getUser => (be_session b, b)
  | select_roles user_id =>
      (Ok (select_user_roles (be_db b) (be_session b) user_id), b)
  | select_role user_id role =>
      (match parse_role role with
       | None => Err "invalid input value for enum app_role"
       | Some wanted =>
           maybeSingle
             (List.filter (role_eqb wanted)
                (select_user_roles (be_db b) (be_session b) user_id))
       end, b)
  | insert_application_op caller service_ status_ =>
      let (r, d) :=
        insert_application (be_db b) (be_session b) (be_now b)
                           (be_uuids b (be_drawn b)) caller service_ status_
      in (r, draw_uuid (with_db b d))
  | upload path f =>
      let (r, d) := storage_upload (be_db b) (be_session b) path f in
      (r, with_db b d)
  | insert_document_op application_id name url type_ =>
      let (r, d) :=
        insert_document (be_db b) (be_session b) (be_now b) application_id
                        name url type_
      in (r, with_db b d)
  | insert_payment_op application_id amount_ status_ method paid =>
      let (r, d) :=
        insert_payment (be_db b) (be_session b) application_id amount_
                       status_ method paid
      in (r, with_db b d)
  | update_application_op id u =>
      let (r, d) :=
        update_application (be_db b) (be_session b) (be_now b) id u
      in (r, with_db b d)
  | select_application_stats =>
      (Ok (map (fun a => {| row_status := status a;
                            row_fee := joined_fee (be_db b) (be_session b) a |})
               (select_applications (be_db b) (be_session b))),
       b)
  | count_citizens =>
      (Ok (Some (length
                   (List.filter
                      (fun r => user_roles_select_policy (be_session b) r
                                && role_eqb (ur_role r) citizen)
                      (user_roles (be_db b))))),
       b)
  end.

(** ** Predicates the statements are about *)

(** The terminal states of the lifecycle. *)
Definition terminal (s : application_status) : bool :=
  match s with
  | approved | rejected => true
  | _ => false
  end.

(** [completed_on] is non-null exactly when the status is terminal. *)
Definition completed_iff_terminal (row : application) : Prop :=
  completed_on row <> None <-> terminal (status row) = true.

(** The statuses that none of the three displayed counters counts. *)
Definition uncounted (s : application_status) : bool :=
  match s with
  | under_review | additional_info_required => true
  | _ => false
  end.






(** The writes the pages issue, with the literals the pages use: a
    submission's insert, upload, document record and payment; a click on
    one of the two buttons of an officer's card; and account creation. *)
Inductive portal_write (d : database) : database -> Prop :=
| submits uid now new_id citizen_ service_ :
    portal_write d
      (snd (insert_application d uid now new_id citizen_ service_ "pending"))
| uploads uid path f :
    portal_write d (snd (storage_upload d uid path f))
| records uid now application_id name url type_ :
    portal_write d
      (snd (insert_document d uid now application_id name url type_))
| pays uid application_id amount_ paid :
    portal_write d
      (snd (insert_payment d uid application_id amount_ "completed" "mock"
                           paid))
| decides uid now remarks_ clicked appId shown newStatus :
    In newStatus (card_buttons shown) ->
    portal_write d
      (snd (update_application d uid now appId
                               (updateData remarks_ clicked appId newStatus)))
| signs_up u :
    portal_write d (snd (signup d u)).

(** Any number of such writes. *)
Inductive portal_writes (d : database) : database -> Prop :=
| writes_none : portal_writes d d
| writes_more d1 d2 :
    portal_writes d d1 -> portal_write d1 d2 -> portal_writes d d2.


(** What [handleSubmit] shows after a complete submission. *)
Definition submitted : list ui_action :=
  [setSubmitting true; toast_success "Application submitted successfully!";
   navigate "/"; setSubmitting false].

(** ** Scenario data *)

(** The two fees of the seeded services, 50.00 and 25.00. *)
Definition fee_50 : decimal_10_2 :=
  {| hundredths := 5000; hundredths_fit := eq_refl |}.


Definition residence_certificate : service :=
  {| service_id := "svc-residence"; service_name := "Residence Certificate";
     fee := fee_50; required_documents := ["Aadhaar Card"; "Address Proof"];
     is_active := true |}.

Definition user_of (id : uuid) : auth_user :=
  {| au_id := id; au_email := Some (id +:+ "@example.org");
     au_full_name := None |}.

Definition grant (id : uuid) (r : app_role) : user_role :=
  {| ur_user_id := id; ur_role := r |}.

(** A database with a citizen ["asha"], an officer ["omkar"] who holds no
    other role, and ["meera"], who is both citizen and officer. *)
Definition office_db : database :=
  {| auth_users := [user_of "asha"; user_of "omkar"; user_of "meera"];
     profiles := [];
     user_roles := [grant "asha" citizen; grant "omkar" officer;
                    grant "meera" citizen; grant "meera" officer];
     services := [residence_certificate];
     applications := []; documents := []; payments := [];
     storage_objects := [] |}.

(** An application of ["asha"] that waits for an officer, with a note
    from an earlier update. *)
Definition pending_row : application :=
  {| app_id := "app-2"; citizen_id := "asha";
     app_service_id := "svc-residence"; officer_id := None;
     status := pending; remarks := Some "photo is blurred"; applied_on := 2%N;
     completed_on := None; updated_at := 3%N |}.

Definition signed_in (user : uuid) (d : database) : backend :=
  {| be_db := d; be_session := Some user; be_now := 9%N;
     be_uuids := fun n => "app-" +:+ String (ascii_of_nat (48 + n)) "";
     be_drawn := 1 |}.

Definition both_files : js_object file :=
  [("Aadhaar Card", {| file_name := "aadhaar.pdf"; file_bytes := "%PDF" |});
   ("Address Proof", {| file_name := "bill.scan.jpg"; file_bytes := "JFIF" |})].

Definition public_url (path : string) : string :=
  "https://project.supabase.co/storage/v1/object/public/application-documents/"
  +:+ path.





(** The database a handler leaves at the backend. *)
Definition db_after {A} (x : A * backend * list event) : database :=
  be_db (snd (fst x)).

(** ** More of [ApplyService.tsx]: the [files] state *)

(** The value of a decimal digit. *)
Definition digit_of (a : ascii) : option N :=
  let n := N_of_ascii a in
  if ((48 <=? n) && (n <=? 57))%N then Some (n - 48)%N else None.

Fixpoint digits_value (s : string) (acc : N) : option N :=
  match s with
  | EmptyString => Some acc
  | String a s' =>
      match digit_of a with
      | Some d => digits_value s' (10 * acc + d)%N
      | None => None
      end
  end.

(** A property key that is an array index: the canonical decimal text of an
    integer below [2^32 - 1]. An object lists such keys first, in ascending
    order, and its other keys after them in the order they were added. *)
Definition array_index (k : string) : option N :=
  match k with
  | EmptyString => None
  | String a rest =>
      if Ascii.eqb a "0" && negb (rest =? "") then None
      else match digits_value k 0 with
           | Some n => if (n <? 4294967295)%N then Some n else None
           | None => None
           end
  end.

(** Assigning to a key the object has: the value changes, the place does
    not. *)
Fixpoint replace_own {V} (o : js_object V) (k : string) (v : V)
  : js_object V :=
  match o with
  | [] => []
  | (k', v') :: o' =>
      if k' =? k then (k, v) :: o' else (k', v') :: replace_own o' k v
  end.

(** Adding the array index [n], written [k]: before the first key that is
    not a smaller array index. *)
Fixpoint insert_index {V} (n : N) (k : string) (v : V) (o : js_object V)
  : js_object V :=
  match o with
  | [] => [(k, v)]
  | (k', v') :: o' =>
      match array_index k' with
      | Some m =>
          if (m <? n)%N then (k', v') :: insert_index n k v o'
          else (k, v) :: (k', v') :: o'
      | None => (k, v) :: (k', v') :: o'
      end
  end.

(** [{ ...prev, [k]: v }] *)
Definition define_property {V} (o : js_object V) (k : string) (v : V)
  : js_object V :=
  match own_property o k with
  | Some _ => replace_own o k v
  | None =>
      match array_index k with
      | Some n => insert_index n k v o
      | None => o ++ [(k, v)]
      end
  end.

(** [const next = { ...prev }; delete next[k]; return next] *)
Definition delete_property {V} (o : js_object V) (k : string) : js_object V :=
  List.filter (fun e => negb (fst e =? k)) o.

(** [handleFileChange(docType, file)], as the new [files] state; [file] is
    the chosen file or [null]. *)
Definition handleFileChange (files : js_object file) (docType : string)
  (chosen : option file) : js_object file :=
  match chosen with
  | Some f => define_property files docType f
  | None => delete_property files docType
  end.

(** The order in which an object lists its keys: array indices ascending,
    then the other keys. [bound] is the least index still allowed. *)
Fixpoint listed_in_order {V} (bound : N) (o : js_object V) : bool :=
  match o with
  | [] => true
  | (k, _) :: o' =>
      match array_index k with
      | Some n => (bound <=? n)%N && listed_in_order n o'
      | None => forallb (fun e => match array_index (fst e) with
                                 | Some _ => false
                                 | None => true
                                 end) o'
      end
  end.

(** The [files] state after a series of choices, starting from the
    initial [{}]; each change is a label with the chosen file or [null]. *)
Definition files_after (changes : list (string * option file))
  : js_object file :=
  fold_left (fun files change =>
               handleFileChange files (fst change) (snd change))
            changes [].

(** Does the character occur in the text? *)
Fixpoint has_char (c : ascii) (s : string) : bool :=
  match s with
  | EmptyString => false
  | String a s' => Ascii.eqb a c || has_char c s'
  end.

(** ** What a submission leaves at the backend *)

(** The application row a submission creates. *)
Definition submitted_application (b : backend) (user_id : uuid)
  (svc : service) : application :=
  {| app_id := be_uuids b (be_drawn b); citizen_id := user_id;
     app_service_id := service_id svc; officer_id := None; status := pending;
     remarks := None; applied_on := be_now b; completed_on := None;
     updated_at := be_now b |}.

(** The object and the document row of one entry of [files]. *)
Definition submitted_object (user_id application_id : uuid)
  (entry : string * file) : string * file :=
  (fileName user_id application_id (fst entry) (snd entry), snd entry).

Definition submitted_document (getPublicUrl : string -> string)
  (uploaded : timestamp) (user_id application_id : uuid)
  (entry : string * file) : document :=
  {| doc_application_id := application_id;
     doc_file_name := file_name (snd entry);
     doc_file_url :=
       getPublicUrl (fileName user_id application_id (fst entry) (snd entry));
     doc_type := fst entry; uploaded_at := uploaded |}.

(** The payment row of a submission. *)
Definition submitted_payment (application_id : uuid) (svc : service)
  (paid : timestamp) : payment :=
  {| pay_application_id := application_id; transaction_id := None;
     amount := fee svc; pay_status := payment_completed;
     payment_method := Some "mock"; paid_at := Some paid |}.

(** [d'] holds everything [d] holds, unchanged and in place, and possibly
    more applications, documents, payments and objects after it. *)
Definition extends (d d' : database) : Prop :=
  auth_users d' = auth_users d
  /\ profiles d' = profiles d
  /\ user_roles d' = user_roles d
  /\ services d' = services d
  /\ (exists more, applications d' = applications d ++ more)
  /\ (exists more, documents d' = documents d ++ more)
  /\ (exists more, payments d' = payments d ++ more)
  /\ (exists more, storage_objects d' = storage_objects d ++ more).

(** Does a handler await requests of the allowed kind only, whatever the
    answers? *)
Fixpoint issues_only {A} (allowed : op -> bool) (p : prog A) : Prop :=
  match p with
  | Ret _ => True
  | Call o k => allowed o = true /\ forall r, issues_only allowed (k r)
  end.

Definition is_update (o : op) : bool :=
  match o with
  | update_application_op _ _ => true
  | _ => false
  end.

(** The application rows the backend reported as created. *)
Fixpoint created_applications (tr : list event) : list application :=
  match tr with
  | [] => []
  | existT (insert_application_op _ _ _) (Ok app) :: rest =>
      app :: created_applications rest
  | _ :: rest => created_applications rest
  end.

(** The office database with an object already stored where ["asha"]'s
    next application would put its first document. *)
Definition clashing_db : database :=
  set_storage_objects
    [("asha/app-1/Aadhaar Card.pdf",
      {| file_name := "old.pdf"; file_bytes := "%PDF" |})] office_db.

(** ** More reads of the dashboards *)

(** [.single()]: exactly one row, or an error with no data. *)
Definition single {A} (rows : list A) : result A :=
  match rows with
  | [row] => Ok row
  | _ => Err "JSON object requested, multiple (or no) rows returned"
  end.

(** ["Users can view their own profile"] *)
Definition profiles_select_policy (uid : option uuid) (p : profile) : bool :=
  uid_is uid (profile_id p).

(** [from("profiles").select("full_name, email").eq("id", id).single()] *)
Definition select_profile (d : database) (uid : option uuid) (id : uuid)
  : result profile :=
  single (List.filter (fun p => profiles_select_policy uid p
                                && (profile_id p =? id)) (profiles d)).

(** [profile || { full_name: "Unknown", email: "N/A" }] of
    [fetchApplications] in [OfficerDashboard.tsx], as the name and the
    e-mail address the card shows; [profile] is the [data] of the query,
    null on an error. *)
Definition applicant (r : result profile) : string * string :=
  match r with
  | Ok p => (profile_full_name p, profile_email p)
  | Err _ => ("Unknown", "N/A")
  end.

Definition applicant_of (d : database) (uid : option uuid)
  (app : application) : string * string :=
  applicant (select_profile d uid (citizen_id app)).

(** [from("services").select(...).eq("id", serviceId).single()] of
    [fetchService] in [ApplyService.tsx]. *)
Definition select_service (d : database) (uid : option uuid) (id : uuid)
  : result service :=
  single (List.filter (fun s => services_select_policy d uid s
                                && (service_id s =? id)) (services d)).

(** [fetchService]: the [service] state it leaves and what it does to the
    page. *)
Definition fetchService (d : database) (uid : option uuid) (serviceId : uuid)
  : option service * list ui_action :=
  match select_service d uid serviceId with
  | Ok data => (Some data, [setLoading false])
  | Err _ =>
      (None,
       [toast_error "Failed to load service details"; navigate "/";
        setLoading false])
  end.

(** ** The status badge of both dashboards *)

(** [text.replace(c, r)] for one-character texts [c] and [r]: only the
    first [c] is replaced. *)
Fixpoint replace_first (c r : ascii) (text : string) : string :=
  match text with
  | EmptyString => EmptyString
  | String a rest =>
      if Ascii.eqb a c then String r rest
      else String a (replace_first c r rest)
  end.

(** [toUpperCase] on the letters [a] to [z]; the status labels hold no
    other letters. *)
Definition upper (a : ascii) : ascii :=
  let n := nat_of_ascii a in
  if ((97 <=? n) && (n <=? 122))%nat then ascii_of_nat (n - 32) else a.

Fixpoint toUpperCase (text : string) : string :=
  match text with
  | EmptyString => EmptyString
  | String a rest => String (upper a) (toUpperCase rest)
  end.

(** [app.status.replace("_", " ").toUpperCase()] *)
Definition badge (s : application_status) : string :=
  toUpperCase (replace_first "_" " " (status_name s)).

(** How often the character occurs in the text. *)
Fixpoint occurrences (c : ascii) (text : string) : nat :=
  match text with
  | EmptyString => 0
  | String a rest => (if Ascii.eqb a c then 1 else 0) + occurrences c rest
  end.

(** What holds of every application row the portal writes: no officer is
    assigned, the status is one the admin dashboard counts, and
    [completed_on] is set exactly in a terminal status. *)
Definition portal_row (row : application) : Prop :=
  officer_id row = None
  /\ uncounted (status row) = false
  /\ completed_iff_terminal row.

(** The requests of a submission: never an update, and an application
    only as ['pending']. *)
Definition submission_request (o : op) : bool :=
  negb (is_update o)
  && match o with
     | insert_application_op _ _ status_ => status_ =? "pending"
     | _ => true
     end.

(** * Part II: lemmas and theorems *)

(** The statements of the backend are kept folded by [simpl]. *)
Arguments select_user_roles : simpl never.
Arguments select_applications : simpl never.
Arguments insert_application : simpl never.
Arguments update_application : simpl never.
Arguments insert_document : simpl never.
Arguments insert_payment : simpl never.
Arguments storage_upload : simpl never.

(** ** Enumerations *)

Lemma parse_status_name (s : application_status) :
  parse_status (status_name s) = Some s.
Proof. destruct s; reflexivity. Qed.

(** Case analysis on the first comparison of [l] with a literal. *)
Ltac case_label l :=
  match goal with
  | |- context [String.eqb l ?c] =>
      destruct (String.eqb_spec l c) as [->|?]
  end.

Lemma parse_status_inv (label : string) (s : application_status) :
  parse_status label = Some s -> label = status_name s.
Proof.
  unfold parse_status.
  repeat (case_label label; [intros [= <-]; reflexivity|]).
  discriminate.
Qed.

Lemma role_eqb_eq (a b : app_role) : role_eqb a b = true <-> a = b.
Proof. destruct a, b; simpl; split; congruence. Qed.

Lemma uid_is_true (uid : option uuid) (col : uuid) :
  uid_is uid col = true <-> uid = Some col.
Proof.
  destruct uid as [u|]; simpl.
  - rewrite String.eqb_eq. split; congruence.
  - split; discriminate.
Qed.

(** ** Admin statistics *)

Lemma count_status_cons (label : string) (a : stats_row)
  (apps : list stats_row) :
  count_status label (a :: apps) =
  ((if String.eqb (status_name (row_status a)) label then 1 else 0)
   + count_status label apps)%nat.
Proof.
  unfold count_status. simpl.
  destruct (status_name (row_status a) =? label); reflexivity.
Qed.

(** The three displayed counters and the rows they leave out add up to the
    total. *)
Lemma stats_partition (apps : list stats_row) (citizenCount : option nat) :
  let st := stats_of apps citizenCount in
  (pendingApplications st + approvedApplications st + rejectedApplications st
   + length (List.filter (fun a => uncounted (row_status a)) apps))%nat
  = totalApplications st.
Proof.
  simpl. induction apps as [|a apps IH]; [reflexivity|].
  rewrite !count_status_cons. simpl length.
  destruct a as [s f]; destruct s; simpl; lia.
Qed.

Lemma filter_nil_iff {A} (p : A -> bool) (l : list A) :
  length (List.filter p l) = 0%nat <-> forall x, In x l -> p x = false.
Proof.
  induction l as [|x l IH]; simpl.
  - split; [intros _ x []|reflexivity].
  - destruct (p x) eqn:E; simpl.
    + split; [discriminate|]. intros H. specialize (H x (or_introl eq_refl)).
      congruence.
    + rewrite IH. split.
      * intros H y [<-|Hy]; auto.
      * intros H y Hy. apply H. now right.
Qed.

(** C10. For every fetched list of application rows the three displayed
    counters sum to at most [totalApplications]; the sum equals the total
    exactly when no row is [under_review] or [additional_info_required];
    such rows are counted in the total and in none of the three counters. *)
Theorem stats_buckets (apps : list stats_row) (citizenCount : option nat) :
  let st := stats_of apps citizenCount in
  let shown := (pendingApplications st + approvedApplications st
                + rejectedApplications st)%nat in
  (shown <= totalApplications st)%nat
  /\ (shown = totalApplications st
      <-> forall a, In a apps -> uncounted (row_status a) = false)
  /\ totalApplications st = length apps
  /\ (forall a, uncounted (row_status a) = true ->
        count_status "pending" [a] = 0%nat
        /\ count_status "approved" [a] = 0%nat
        /\ count_status "rejected" [a] = 0%nat).
Proof.
  intros st shown.
  pose proof (stats_partition apps citizenCount) as P. cbv zeta in P.
  subst shown st.
  split; [lia|]. split; [|split].
  - rewrite <- (filter_nil_iff (fun a => uncounted (row_status a))). lia.
  - reflexivity.
  - intros [s f] H. destruct s; try discriminate; repeat split.
Qed.

(** The statistics shown are those of the fetched rows: [fetchStats] calls
    [setStats] at most once, with [stats_of] the rows it read. *)
Lemma fetchStats_spec {S : Type} (exec : forall o : op, S -> resp o * S)
  (s : S) (st : Stats) :
  In (setStats st) (fst (fst (run exec fetchStats s))) ->
  exists apps citizenCount,
    fst (exec select_application_stats s) = Ok apps
    /\ st = stats_of apps citizenCount.
Proof.
  unfold fetchStats. simpl.
  destruct (exec select_application_stats s) as [r s1] eqn:E1.
  destruct r as [e|apps]; simpl.
  - intros [H|[H|[]]]; discriminate.
  - destruct (exec count_citizens s1) as [c s2] eqn:E2.
    destruct c as [e|c]; simpl.
    + intros [H|[H|[]]]; discriminate.
    + intros [H|[H|[]]]; try discriminate.
      injection H as <-. eauto.
Qed.

(** ** The signup trigger *)

Lemma filter_none {A} (p : A -> bool) (l : list A) :
  (forall x, In x l -> p x = false) -> List.filter p l = [].
Proof.
  induction l as [|x l IH]; intros H; [reflexivity|]. simpl.
  rewrite (H x (or_introl eq_refl)). apply IH. intros y Hy. apply H.
  now right.
Qed.

(** A row that references a user does not carry an identifier that no
    user has. *)
Lemma unreferenced {A} (key : A -> uuid) (rows : list A)
  (users : list auth_user) (id : uuid) :
  (forall x, In x rows ->
             existsb (fun v => au_id v =? key x) users = true) ->
  existsb (fun v => au_id v =? id) users = false ->
  forall x, In x rows -> (key x =? id) = false.
Proof.
  intros Hrows Hnew x Hx. destruct (String.eqb_spec (key x) id) as [<-|];
    [|reflexivity].
  rewrite (Hrows x Hx) in Hnew. discriminate.
Qed.

Lemma existsb_none {A} (p : A -> bool) (l : list A) :
  (forall x, In x l -> p x = false) -> existsb p l = false.
Proof.
  induction l as [|x l IH]; intros H; [reflexivity|]. simpl.
  rewrite (H x (or_introl eq_refl)). apply IH. intros y Hy. apply H.
  now right.
Qed.

(** C7. Account creation for a new user adds, in one statement, exactly
    one profile, whose [id] is the identity's, and exactly one role row,
    [(id, citizen)]. It goes through exactly when the identity has an e-mail
    address and its identifier is that of no user, no profile and no citizen
    role row; the database is then the old one with the identity, that
    profile and that role row appended, and nothing else changed. Otherwise
    it fails and keeps nothing of the statement: no identity, no profile, no
    role row. Where every profile and every role row belongs to a user, a
    new identifier with an e-mail address is enough, and afterwards the
    rows of the user are one profile and one role row, citizen. *)
Theorem signup_creates_profile_and_citizen_role (d : database)
  (u : auth_user) :
  let id := au_id u in
  let admitted :=
    match au_email u with Some _ => true | None => false end
    && negb (existsb (fun v => au_id v =? id) (auth_users d))
    && negb (existsb (fun p => profile_id p =? id) (profiles d))
    && negb (existsb (fun r => (ur_user_id r =? id)
                               && role_eqb (ur_role r) citizen)
                     (user_roles d)) in
  let new_profile email :=
    {| profile_id := id; profile_email := email; profile_phone := None;
       profile_full_name := match au_full_name u with
                            | Some n => n
                            | None => "User"
                            end |} in
  (admitted = true ->
   exists email,
     au_email u = Some email
     /\ signup d u
        = (Ok tt,
           set_user_roles (user_roles d ++ [grant id citizen])
             (set_profiles (profiles d ++ [new_profile email])
                (set_auth_users (auth_users d ++ [u]) d))))
  /\ (admitted = false -> exists e, signup d u = (Err e, d))
  /\ ((forall p, In p (profiles d) ->
         existsb (fun v => au_id v =? profile_id p) (auth_users d) = true) ->
      (forall r, In r (user_roles d) ->
         existsb (fun v => au_id v =? ur_user_id r) (auth_users d) = true) ->
      au_email u <> None ->
      existsb (fun v => au_id v =? id) (auth_users d) = false ->
      let d' := snd (signup d u) in
      is_ok (fst (signup d u)) = true
      /\ List.filter (fun r => ur_user_id r =? id) (user_roles d')
         = [grant id citizen]
      /\ map profile_id
             (List.filter (fun p => profile_id p =? id) (profiles d'))
         = [id]
      /\ applications d' = applications d
      /\ documents d' = documents d
      /\ payments d' = payments d).
Proof.
  intros id admitted new_profile. subst admitted new_profile.
  split; [|split].
  - intros H. apply andb_true_iff in H as [H Hr].
    apply andb_true_iff in H as [H Hp]. apply andb_true_iff in H as [He Hu].
    apply negb_true_iff in Hr, Hp, Hu.
    unfold signup. fold id. rewrite Hu. unfold handle_new_user.
    destruct (au_email u) as [email|]; [|discriminate].
    exists email. split; [reflexivity|]. fold id.
    cbn [profiles user_roles set_profiles set_auth_users]. rewrite Hp.
    cbn [profiles user_roles set_profiles set_auth_users]. rewrite Hr. reflexivity.
  - intros H. unfold signup. fold id.
    destruct (existsb _ (auth_users d)); [eauto|].
    unfold handle_new_user. fold id.
    destruct (au_email u) as [email|]; [|eauto].
    cbn [profiles user_roles set_profiles set_auth_users].
    destruct (existsb _ (profiles d)); [eauto|].
    cbn [profiles user_roles set_profiles set_auth_users].
    destruct (existsb _ (user_roles d)); [eauto|]. discriminate.
  - intros Hprofiles Hroles He Hu d'.
    pose proof (unreferenced profile_id (profiles d) (auth_users d) id
                  Hprofiles Hu) as Hp.
    pose proof (unreferenced ur_user_id (user_roles d) (auth_users d) id
                  Hroles Hu) as Hr.
    subst d'. unfold signup. fold id. rewrite Hu. unfold handle_new_user.
    fold id. destruct (au_email u) as [email|]; [|congruence].
    cbn [profiles user_roles set_profiles set_auth_users].
    rewrite (existsb_none _ _ Hp).
    cbn [profiles user_roles set_profiles set_auth_users].
    rewrite existsb_none
      by (intros r Hin; now rewrite (Hr r Hin)).
    cbn [fst snd is_ok user_roles profiles set_user_roles set_profiles
         set_auth_users applications documents payments].
    rewrite !List.filter_app, (filter_none _ _ Hp), (filter_none _ _ Hr).
    cbn [List.filter Datatypes.app grant ur_user_id profile_id map].
    rewrite String.eqb_refl. repeat split.
Qed.

Lemma signup_creates_profile_and_citizen_role_witness :
  let u := user_of "ravi" in
  signup office_db u
  = (Ok tt,
     set_user_roles (user_roles office_db ++ [grant "ravi" citizen])
       (set_profiles
          [{| profile_id := "ravi"; profile_email := "ravi@example.org";
              profile_phone := None; profile_full_name := "User" |}]
          (set_auth_users (auth_users office_db ++ [u]) office_db))).
Proof.
  intros u.
  destruct (signup_creates_profile_and_citizen_role office_db u)
    as (Hadds & _).
  destruct (Hadds eq_refl) as (email & He & Hs).
  injection He as <-. exact Hs.
Defined.

(** When the signup goes through: a new identifier that has an e-mail
    address and that no profile or citizen role row mentions yet. *)
Lemma signup_succeeds (d : database) (u : auth_user) :
  au_email u <> None ->
  existsb (fun v => au_id v =? au_id u) (auth_users d) = false ->
  existsb (fun p => profile_id p =? au_id u) (profiles d) = false ->
  existsb (fun r => (ur_user_id r =? au_id u) && role_eqb (ur_role r) citizen)
          (user_roles d) = false ->
  is_ok (fst (signup d u)) = true.
Proof.
  intros He Hu Hp Hr. unfold signup. rewrite Hu. unfold handle_new_user.
  destruct (au_email u); [|congruence]. simpl. rewrite Hp. simpl.
  rewrite Hr. reflexivity.
Qed.

Example signup_asha :
  let d := snd (signup empty_database (user_of "asha")) in
  profiles d = [{| profile_id := "asha"; profile_email := "asha@example.org";
                   profile_phone := None; profile_full_name := "User" |}]
  /\ user_roles d = [grant "asha" citizen].
Proof. split; reflexivity. Qed.

(** ** Policies on [documents] *)

Lemma owns_application_iff (d : database) (caller : uuid)
  (application_id : uuid) :
  owns_application d (Some caller) application_id = true
  <-> exists a, In a (applications d) /\ app_id a = application_id
                /\ citizen_id a = caller.
Proof.
  unfold owns_application, select_applications.
  rewrite existsb_exists. split.
  - intros (a & Hin & H). apply filter_In in Hin as [Hin _].
    apply andb_true_iff in H as [H1 H2].
    apply String.eqb_eq in H1. apply uid_is_true in H2.
    exists a. repeat split; congruence.
  - intros (a & Hin & <- & <-). exists a. split.
    + apply filter_In. split; [assumption|].
      unfold applications_select_policy. simpl. now rewrite String.eqb_refl.
    + simpl. now rewrite !String.eqb_refl.
Qed.

(** C8. A citizen's insert into [documents] succeeds exactly when the
    referenced application exists and is the caller's own; a rejected
    insert leaves the database, and so the documents table, as it was. *)
Theorem document_insert_policy (d : database) (caller : uuid)
  (now : timestamp) (application_id : uuid) (name url type_ : string) :
  let r := fst (insert_document d (Some caller) now application_id name url
                                type_) in
  let d' := snd (insert_document d (Some caller) now application_id name url
                                 type_) in
  (is_ok r = true
   <-> exists a, In a (applications d) /\ app_id a = application_id
                 /\ citizen_id a = caller)
  /\ (is_ok r = true ->
      documents d' = documents d ++
        [{| doc_application_id := application_id; doc_file_name := name;
            doc_file_url := url; doc_type := type_; uploaded_at := now |}])
  /\ (is_ok r = false -> d' = d /\ documents d' = documents d).
Proof.
  intros r d'. subst r d'. unfold insert_document, documents_insert_check.
  simpl doc_application_id.
  rewrite <- owns_application_iff.
  destruct (owns_application d (Some caller) application_id); simpl.
  - repeat split; auto; discriminate.
  - repeat split; auto; discriminate.
Qed.

(** ** Policies on [applications] *)

Lemma filter_all {A} (p : A -> bool) (l : list A) :
  (forall x, In x l -> p x = true) -> List.filter p l = l.
Proof.
  induction l as [|x l IH]; simpl; intros H; [reflexivity|].
  rewrite (H x (or_introl eq_refl)). f_equal. apply IH.
  intros y Hy. apply H. now right.
Qed.

Lemma map_unchanged {A} (f : A -> A) (l : list A) :
  (forall x, In x l -> f x = x) -> map f l = l.
Proof.
  induction l as [|x l IH]; simpl; intros H; [reflexivity|].
  rewrite (H x (or_introl eq_refl)). f_equal. apply IH.
  intros y Hy. apply H. now right.
Qed.

Lemma set_applications_same (d : database) :
  set_applications (applications d) d = d.
Proof. destruct d; reflexivity. Qed.

Lemma insert_application_ok (d : database) (uid : option uuid)
  (now : timestamp) (new_id citizen_ service_ : uuid) (status_ : string) :
  is_ok (fst (insert_application d uid now new_id citizen_ service_ status_))
  = true
  <-> uid = Some citizen_
      /\ parse_status status_ <> None
      /\ existsb (fun u => au_id u =? citizen_) (auth_users d) = true
      /\ existsb (fun s => service_id s =? service_) (services d) = true
      /\ existsb (fun a => app_id a =? new_id) (applications d) = false.
Proof.
  unfold insert_application, applications_insert_check.
  destruct (parse_status status_) as [st|]; simpl.
  2: { split; [discriminate|]. intros (_ & H & _). congruence. }
  rewrite <- uid_is_true.
  destruct (uid_is uid citizen_); simpl.
  2: { split; [discriminate|]. intros (H & _). discriminate. }
  destruct (existsb _ (auth_users d)); simpl.
  2: { split; [discriminate|]. intros (_ & _ & H & _). discriminate. }
  destruct (existsb _ (services d)); simpl.
  2: { split; [discriminate|]. intros (_ & _ & _ & H & _). discriminate. }
  destruct (existsb _ (applications d)); simpl.
  - split; [discriminate|]. intros (_ & _ & _ & _ & H). discriminate.
  - split; [|reflexivity]. intros _. repeat split; congruence.
Qed.

(** An officer's or admin's update reaches every row with the given
    identifier. *)
Lemma update_application_by_officer (d : database) (uid : option uuid)
  (now : timestamp) (id : uuid) (u : update_data) (st : application_status) :
  officer_or_admin d uid = true ->
  parse_status (upd_status u) = Some st ->
  applications (snd (update_application d uid now id u))
  = map (fun row => if app_id row =? id then apply_update now st u row
                    else row) (applications d).
Proof.
  intros H Hst. unfold update_application. rewrite Hst. simpl.
  apply map_ext. intros row. unfold applications_update_using. rewrite H.
  now rewrite andb_true_r.
Qed.

(** C4 does not hold as stated: ["omkar"] holds the officer role and no
    other, and his insert of an application row for himself is admitted. *)
Lemma officer_can_insert_own_row :
  has_role office_db (Some "omkar") officer = true
  /\ has_role office_db (Some "omkar") citizen = false
  /\ exists row,
       insert_application office_db (Some "omkar") 9%N "app-1" "omkar"
                          "svc-residence" "pending"
       = (Ok row, set_applications [row] office_db)
       /\ citizen_id row = "omkar".
Proof.
  split; [reflexivity|]. split; [reflexivity|].
  eexists. split; reflexivity.
Qed.

(** C4, amended. A read of [applications] returns the caller's own rows
    and, for an officer or admin, all rows. An insert is admitted only for
    a row whose [citizen_id] is the caller, and the policy looks at no
    role: a valid row of the caller's own is admitted for any caller. An
    update reaches every row for an officer or admin, and no row for
    anyone else. *)
Theorem applications_policy (d : database) (uid : option uuid) :
  (forall row,
      In row (select_applications d uid)
      <-> In row (applications d)
          /\ (uid = Some (citizen_id row) \/ officer_or_admin d uid = true))
  /\ (officer_or_admin d uid = false ->
      select_applications d uid
      = List.filter (fun row => uid_is uid (citizen_id row)) (applications d))
  /\ (officer_or_admin d uid = true ->
      select_applications d uid = applications d)
  /\ (forall now new_id citizen_ service_ status_,
        is_ok (fst (insert_application d uid now new_id citizen_ service_
                                       status_)) = true
        <-> uid = Some citizen_
            /\ parse_status status_ <> None
            /\ existsb (fun u => au_id u =? citizen_) (auth_users d) = true
            /\ existsb (fun s => service_id s =? service_) (services d) = true
            /\ existsb (fun a => app_id a =? new_id) (applications d) = false)
  /\ (forall now id u st,
        officer_or_admin d uid = true ->
        parse_status (upd_status u) = Some st ->
        applications (snd (update_application d uid now id u))
        = map (fun row => if app_id row =? id then apply_update now st u row
                          else row) (applications d))
  /\ (forall now id u,
        officer_or_admin d uid = false ->
        snd (update_application d uid now id u) = d).
Proof.
  repeat apply conj.
  - intros row. unfold select_applications. rewrite filter_In.
    unfold applications_select_policy. rewrite orb_true_iff, uid_is_true.
    reflexivity.
  - intros H. unfold select_applications. apply filter_ext. intros row.
    unfold applications_select_policy. rewrite H. apply orb_false_r.
  - intros H. unfold select_applications. apply filter_all. intros row _.
    unfold applications_select_policy. rewrite H. apply orb_true_r.
  - intros. apply insert_application_ok.
  - intros now id u st H Hst. now apply update_application_by_officer.
  - intros now id u H. unfold update_application.
    destruct (parse_status (upd_status u)); [|reflexivity]. simpl.
    rewrite map_unchanged; [apply set_applications_same|].
    intros row _. unfold applications_update_using. rewrite H.
    now rewrite andb_false_r.
Qed.

(** ** Officer dashboard: status updates *)

(** The handler awaits one request, the update. *)
Lemma handleUpdateStatus_run (remarks_ : gmap string string)
  (now : timestamp) (appId newStatus : string) (b : backend) :
  let u := updateData remarks_ now appId newStatus in
  let r := update_application (be_db b) (be_session b) (be_now b) appId u in
  run supabase (handleUpdateStatus remarks_ now appId newStatus) b
  = (if is_ok (fst r)
     then [setProcessingId (Some appId);
           toast_success ("Application " +:+ newStatus);
           fetchApplications; setRemarks appId ""; setProcessingId None]
     else [setProcessingId (Some appId);
           toast_error "Failed to update application";
           setProcessingId None],
     with_db b (snd r),
     [existT (update_application_op appId u) (fst r)]).
Proof.
  intros u r. subst u r. unfold handleUpdateStatus. simpl.
  destruct (update_application _ _ _ _ _) as [[e|[]] d']; reflexivity.
Qed.

(** What an officer's or admin's update does to the table. *)
Lemma handleUpdateStatus_applications (remarks_ : gmap string string)
  (now : timestamp) (appId newStatus : string) (b : backend)
  (st : application_status) :
  officer_or_admin (be_db b) (be_session b) = true ->
  parse_status newStatus = Some st ->
  applications
    (db_after (run supabase (handleUpdateStatus remarks_ now appId newStatus)
                   b))
  = map (fun row =>
           if app_id row =? appId
           then apply_update (be_now b) st
                             (updateData remarks_ now appId newStatus) row
           else row)
        (applications (be_db b)).
Proof.
  intros Hrole Hst. rewrite handleUpdateStatus_run. unfold db_after. simpl.
  now apply update_application_by_officer.
Qed.

Lemma updateData_completed_on (remarks_ : gmap string string)
  (now : timestamp) (appId newStatus : string) (st : application_status) :
  parse_status newStatus = Some st ->
  upd_completed_on (updateData remarks_ now appId newStatus)
  = if terminal st then assign now else unchanged.
Proof.
  intros H. apply parse_status_inv in H as ->. destruct st; reflexivity.
Qed.

(** The two buttons of the dashboard only move a row into a terminal
    state. *)
Lemma card_buttons_terminal (shown newStatus : string) :
  In newStatus (card_buttons shown) ->
  exists st, parse_status newStatus = Some st /\ terminal st = true.
Proof.
  unfold card_buttons. destruct (shown =? "pending"); [|intros []].
  intros [<-|[<-|[]]]; eexists; split; reflexivity.
Qed.

(** The handler on its own, for any status it is called with: an officer's
    or admin's update into [approved] or [rejected] sets [completed_on] to
    the current instant; an update into any other status does not touch
    [completed_on], so it stays null where it was null. *)
Lemma update_completed_on (remarks_ : gmap string string)
  (now : timestamp) (appId newStatus : string) (b : backend)
  (st : application_status) :
  officer_or_admin (be_db b) (be_session b) = true ->
  parse_status newStatus = Some st ->
  let u := updateData remarks_ now appId newStatus in
  let d' := db_after (run supabase
                          (handleUpdateStatus remarks_ now appId newStatus)
                          b) in
  applications d'
  = map (fun row => if app_id row =? appId
                    then apply_update (be_now b) st u row else row)
        (applications (be_db b))
  /\ (forall row, status (apply_update (be_now b) st u row) = st)
  /\ (terminal st = true ->
      forall row, completed_on (apply_update (be_now b) st u row) = Some now)
  /\ (terminal st = false ->
      forall row, completed_on (apply_update (be_now b) st u row)
                  = completed_on row)
  /\ (Forall completed_iff_terminal (applications (be_db b)) ->
      terminal st = true
      \/ (forall row, In row (applications (be_db b)) ->
                      app_id row = appId -> completed_on row = None) ->
      Forall completed_iff_terminal (applications d')).
Proof.
  intros Hrole Hst u d'.
  pose proof (handleUpdateStatus_applications remarks_ now appId newStatus b
                st Hrole Hst) as Happs. fold u d' in Happs.
  pose proof (updateData_completed_on remarks_ now appId newStatus st Hst)
    as Hc. fold u in Hc. clearbody u d'.
  assert (Hset : terminal st = true -> forall row,
             completed_on (apply_update (be_now b) st u row) = Some now).
  { intros Ht row. simpl. rewrite Hc, Ht. reflexivity. }
  assert (Hkeep : terminal st = false -> forall row,
             completed_on (apply_update (be_now b) st u row)
             = completed_on row).
  { intros Ht row. simpl. rewrite Hc, Ht. reflexivity. }
  repeat apply conj; try assumption; [reflexivity|].
  intros Hinv Hcase. rewrite Happs. apply List.Forall_forall.
  intros row' Hin. apply in_map_iff in Hin as (row & <- & Hin).
  rewrite List.Forall_forall in Hinv. specialize (Hinv row Hin).
  destruct (String.eqb_spec (app_id row) appId) as [Hid|_]; [|assumption].
  unfold completed_iff_terminal.
  change (status (apply_update (be_now b) st u row)) with st.
  destruct (terminal st) eqn:Ht.
  - rewrite (Hset eq_refl). split; [reflexivity|discriminate].
  - rewrite (Hkeep eq_refl).
    destruct Hcase as [Hcase|Hcase]; [discriminate|].
    rewrite (Hcase row Hin Hid). split; [congruence|discriminate].
Qed.

Lemma update_completed_on_witness :
  let b := signed_in "omkar" (set_applications [pending_row] office_db) in
  officer_or_admin (be_db b) (be_session b) = true
  /\ parse_status "approved" = Some approved
  /\ map (fun row => (status row, completed_on row))
         (applications
            (db_after (run supabase
                           (handleUpdateStatus ∅ 9%N "app-2" "approved") b)))
     = [(approved, Some 9%N)].
Proof.
  intros b. split; [reflexivity|]. split; [reflexivity|].
  destruct (update_completed_on ∅ 9%N "app-2" "approved" b approved
              eq_refl eq_refl) as (Happs & _).
  rewrite Happs. reflexivity.
Defined.

(** *** The equivalence over the portal's own writes *)

Lemma insert_application_applications (d : database) (uid : option uuid)
  (now : timestamp) (new_id citizen_ service_ : uuid) (status_ : string) :
  let r := insert_application d uid now new_id citizen_ service_ status_ in
  match fst r with
  | Ok row =>
      applications (snd r) = applications d ++ [row]
      /\ completed_on row = None
      /\ parse_status status_ = Some (status row)
  | Err _ => snd r = d
  end.
Proof.
  unfold insert_application.
  destruct (parse_status status_) as [st|]; [|reflexivity].
  repeat match goal with
         | |- context [if ?c then _ else _] => destruct c; [reflexivity|]
         end.
  simpl. auto.
Qed.

Lemma update_application_rows (d : database) (uid : option uuid)
  (now : timestamp) (id : uuid) (u : update_data) :
  Forall2 (fun row row' =>
             row' = row
             \/ exists st, parse_status (upd_status u) = Some st
                           /\ row' = apply_update now st u row)
          (applications d) (applications (snd (update_application d uid now id u))).
Proof.
  unfold update_application.
  destruct (parse_status (upd_status u)) as [st|]; simpl.
  - induction (applications d) as [|row rows IH]; constructor; [|exact IH].
    destruct (_ && _); eauto.
  - induction (applications d) as [|row rows IH]; constructor; auto.
Qed.

Lemma signup_applications (d : database) (u : auth_user) :
  applications (snd (signup d u)) = applications d.
Proof.
  unfold signup. destruct (existsb _ (auth_users d)); [reflexivity|].
  unfold handle_new_user.
  destruct (au_email u); [|reflexivity].
  destruct (existsb _ (profiles _)); [reflexivity|].
  destruct (existsb _ (user_roles _)); reflexivity.
Qed.

(** Every write the pages issue keeps the equivalence of a non-null
    [completed_on] and a terminal status on all rows. *)
Lemma portal_write_keeps_completed_iff_terminal (d d' : database) :
  portal_write d d' ->
  List.Forall completed_iff_terminal (applications d) ->
  List.Forall completed_iff_terminal (applications d').
Proof.
  intros [uid now new_id citizen_ service_
         |uid path f
         |uid now application_id name url type_
         |uid application_id amount_ paid
         |uid now remarks_ clicked appId shown newStatus Hbutton
         |u] Hinv.
  - pose proof (insert_application_applications d uid now new_id citizen_
                  service_ "pending") as H. cbv zeta in H.
    destruct (fst (insert_application _ _ _ _ _ _ _)) as [e|row].
    + now rewrite H.
    + destruct H as (-> & Hc & Hs). apply List.Forall_app. split; [assumption|].
      constructor; [|constructor]. injection Hs as Hs.
      unfold completed_iff_terminal. rewrite Hc, <- Hs. simpl.
      split; [congruence|discriminate].
  - unfold storage_upload.
    destruct uid, (first_folder path); try assumption.
    repeat match goal with
           | |- context [if ?c then _ else _] => destruct c; [assumption|]
           end.
    assumption.
  - unfold insert_document. destruct (documents_insert_check _ _ _); assumption.
  - unfold insert_payment.
    destruct (fits_decimal_10_2 amount_); [|assumption]. simpl.
    destruct (payments_insert_check _ _ _); assumption.
  - destruct (card_buttons_terminal shown newStatus Hbutton) as (st & Hst & Ht).
    pose proof (update_application_rows d uid now appId
                  (updateData remarks_ clicked appId newStatus)) as Hrows.
    pose proof (updateData_completed_on remarks_ clicked appId newStatus st
                  Hst) as Hc. rewrite Ht in Hc.
    induction Hrows as [|row row' rows rows' Hrow _ IH].
    + constructor.
    + apply List.Forall_cons_iff in Hinv as [Hrow_inv Hrest].
      constructor; [|now apply IH].
      destruct Hrow as [->|(st' & Hst' & ->)]; [assumption|].
      simpl in Hst'. rewrite Hst in Hst'. injection Hst' as <-.
      unfold completed_iff_terminal, apply_update.
      cbn [completed_on status]. rewrite Hc, Ht.
      split; [reflexivity|discriminate].
  - now rewrite signup_applications.
Qed.

(** Hence it holds on every row of every database the portal can produce
    from an empty one. *)
Lemma portal_rows_completed_iff_terminal (d : database) :
  portal_writes empty_database d ->
  List.Forall completed_iff_terminal (applications d).
Proof.
  induction 1 as [|d1 d2 _ IH Hstep]; [constructor|].
  now apply (portal_write_keeps_completed_iff_terminal d1 d2).
Qed.

(** C1. Every status update of the officer dashboard, the click of an
    officer or admin on one of the two buttons of a card, moves the
    application into [approved] or [rejected] and sets its [completed_on] to
    the current instant; the other rows stay as they were. For every other
    status the update does not mention [completed_on]: the row keeps the one
    it had, null where it was null. Consequently such an update keeps, and
    all rows of every database that the writes of the portal lead to
    satisfy, that [completed_on] is non-null exactly when the status is
    [approved] or [rejected]. *)
Theorem dashboard_update_completed_on (remarks_ : gmap string string)
  (now : timestamp) (appId shown newStatus : string) (b : backend) :
  In newStatus (card_buttons shown) ->
  officer_or_admin (be_db b) (be_session b) = true ->
  let d' := db_after (run supabase
                          (handleUpdateStatus remarks_ now appId newStatus)
                          b) in
  (exists st,
      parse_status newStatus = Some st
      /\ (st = approved \/ st = rejected)
      /\ Forall2 (fun row row' =>
                    if app_id row =? appId
                    then status row' = st /\ completed_on row' = Some now
                    else row' = row)
                 (applications (be_db b)) (applications d'))
  /\ (forall other st' t row,
        parse_status other = Some st' ->
        st' <> approved -> st' <> rejected ->
        let u := updateData remarks_ now appId other in
        upd_completed_on u = unchanged
        /\ completed_on (apply_update t st' u row) = completed_on row
        /\ (completed_on row = None ->
            completed_on (apply_update t st' u row) = None))
  /\ (Forall completed_iff_terminal (applications (be_db b)) ->
      Forall completed_iff_terminal (applications d'))
  /\ (forall d0 d,
        portal_writes d0 d ->
        Forall completed_iff_terminal (applications d0) ->
        forall row, In row (applications d) ->
          (completed_on row <> None
           <-> status row = approved \/ status row = rejected)).
Proof.
  intros Hbutton Hrole d'.
  destruct (card_buttons_terminal shown newStatus Hbutton) as (st & Hst & Ht).
  pose proof (handleUpdateStatus_applications remarks_ now appId newStatus b
                st Hrole Hst) as Happs. fold d' in Happs.
  pose proof (updateData_completed_on remarks_ now appId newStatus st Hst)
    as Hc. rewrite Ht in Hc.
  assert (Hrows : Forall2 (fun row row' =>
                    if app_id row =? appId
                    then status row' = st /\ completed_on row' = Some now
                    else row' = row)
                 (applications (be_db b)) (applications d')).
  { rewrite Happs. clear Happs.
    induction (applications (be_db b)) as [|row rows IH]; constructor;
      [|exact IH].
    destruct (app_id row =? appId); [|reflexivity].
    unfold apply_update. cbn [status completed_on]. now rewrite Hc. }
  split; [|split; [|split]].
  - exists st. repeat split; [assumption| |assumption].
    destruct st; try discriminate; auto.
  - intros other st' t row Hst' Ha Hr u.
    pose proof (updateData_completed_on remarks_ now appId other st' Hst')
      as Hc'. fold u in Hc'.
    assert (Hnt : terminal st' = false) by (destruct st'; simpl; congruence).
    rewrite Hnt in Hc'. unfold apply_update. cbn [completed_on].
    rewrite Hc'. auto.
  - intros Hinv. clear Happs. revert Hinv.
    induction Hrows as [|row row' rows rows' Hrow _ IH]; intros Hinv;
      [constructor|].
    apply List.Forall_cons_iff in Hinv as [Hrow_inv Hrest].
    constructor; [|now apply IH].
    destruct (app_id row =? appId); [|now subst].
    destruct Hrow as [Hs Hcompleted]. unfold completed_iff_terminal.
    rewrite Hs, Hcompleted, Ht. split; [reflexivity|discriminate].
  - intros d0 d Hwrites Hinv.
    assert (Hall : Forall completed_iff_terminal (applications d)).
    { induction Hwrites as [|d1 d2 _ IH Hstep]; [assumption|].
      now apply (portal_write_keeps_completed_iff_terminal d1 d2). }
    intros row Hin. rewrite List.Forall_forall in Hall.
    specialize (Hall row Hin). unfold completed_iff_terminal in Hall.
    rewrite Hall. destruct (status row); simpl; split; intros H;
      try discriminate; auto; destruct H; discriminate.
Qed.

Lemma dashboard_update_completed_on_witness :
  let b := signed_in "omkar" (set_applications [pending_row] office_db) in
  let d' := db_after (run supabase
                          (handleUpdateStatus ∅ 9%N "app-2" "approved") b) in
  (In "approved" (card_buttons "pending")
   /\ officer_or_admin (be_db b) (be_session b) = true)
  /\ Forall completed_iff_terminal (applications d')
  /\ map (fun row => (status row, completed_on row)) (applications d')
     = [(approved, Some 9%N)].
Proof.
  intros b d'.
  assert (Hbutton : In "approved" (card_buttons "pending")) by (now left).
  split; [split; [exact Hbutton|reflexivity]|].
  destruct (dashboard_update_completed_on ∅ 9%N "app-2" "pending" "approved"
              b Hbutton eq_refl) as (_ & _ & Hkeeps & _).
  split; [|reflexivity].
  apply Hkeeps. constructor; [|constructor].
  unfold completed_iff_terminal. simpl. split; [congruence|discriminate].
Defined.

(** C9. An officer's or admin's update writes [remarks] on the row it
    updates, whatever was stored before: null when the text field of that
    application was never edited or is empty, the text itself otherwise.
    Rows of other applications keep theirs. *)
Theorem update_overwrites_remarks (remarks_ : gmap string string)
  (now : timestamp) (appId newStatus : string) (b : backend)
  (st : application_status) :
  officer_or_admin (be_db b) (be_session b) = true ->
  parse_status newStatus = Some st ->
  let u := updateData remarks_ now appId newStatus in
  let d' := db_after (run supabase
                          (handleUpdateStatus remarks_ now appId newStatus)
                          b) in
  let written :=
    match remarks_ !! appId with
    | Some text => if text =? "" then None else Some text
    | None => None
    end in
  upd_remarks u = written
  /\ (remarks_ !! appId = None \/ remarks_ !! appId = Some "" ->
      written = None)
  /\ (forall text, remarks_ !! appId = Some text -> text <> "" ->
      written = Some text)
  /\ Forall2 (fun row row' =>
                app_id row' = app_id row
                /\ remarks row' = if app_id row =? appId then written
                                  else remarks row)
             (applications (be_db b)) (applications d').
Proof.
  intros Hrole Hst u d' written.
  pose proof (handleUpdateStatus_applications remarks_ now appId newStatus b
                st Hrole Hst) as Happs. fold u d' in Happs.
  repeat apply conj.
  - reflexivity.
  - subst written. intros [->| ->]; reflexivity.
  - subst written. intros text -> Hne.
    destruct (String.eqb_spec text ""); congruence.
  - rewrite Happs. clear Happs.
    induction (applications (be_db b)) as [|row rows IH]; constructor;
      [|exact IH].
    destruct (app_id row =? appId); split; reflexivity.
Qed.

Lemma update_overwrites_remarks_witness :
  let b := signed_in "omkar" (set_applications [pending_row] office_db) in
  officer_or_admin (be_db b) (be_session b) = true
  /\ parse_status "rejected" = Some rejected
  /\ upd_remarks (updateData ∅ 9%N "app-2" "rejected") = None
  /\ Forall2 (fun row row' =>
                app_id row' = app_id row
                /\ remarks row' = if app_id row =? "app-2" then None
                                  else remarks row)
             [pending_row]
             (applications
                (db_after (run supabase
                               (handleUpdateStatus ∅ 9%N "app-2" "rejected")
                               b))).
Proof.
  intros b. split; [reflexivity|]. split; [reflexivity|].
  destruct (update_overwrites_remarks ∅ 9%N "app-2" "rejected" b rejected
              eq_refl eq_refl) as (Hu & _ & _ & Hrows).
  split; [exact Hu|exact Hrows].
Defined.

(** After a successful update the text field of that application is
    empty again. *)
Lemma remarks_reset (remarks_ : gmap string string) (now : timestamp)
  (appId newStatus : string) (b : backend) :
  is_ok (fst (update_application (be_db b) (be_session b) (be_now b) appId
                (updateData remarks_ now appId newStatus))) = true ->
  remarks_after
    (fst (fst (run supabase (handleUpdateStatus remarks_ now appId newStatus)
                   b))) remarks_ !! appId = Some "".
Proof.
  intros H. rewrite handleUpdateStatus_run. cbv zeta. rewrite H.
  unfold remarks_after. simpl. apply lookup_insert_eq.
Qed.

(** ** Role routing *)

(** Under ["Users can view their own roles"] a user's query for the own
    roles returns every role row of that user. *)
Lemma select_user_roles_own (d : database) (user_id : uuid) :
  select_user_roles d (Some user_id) user_id
  = map ur_role
        (List.filter (fun r => ur_user_id r =? user_id) (user_roles d)).
Proof.
  unfold select_user_roles. f_equal. apply filter_ext. intros r.
  unfold user_roles_select_policy. simpl.
  rewrite (String.eqb_sym user_id). apply andb_diag.
Qed.

Lemma route_by_roles_single (r : app_role) :
  route_by_roles [role_name r]
  = match r with
    | citizen => "/citizen"
    | officer => "/officer"
    | admin => "/admin"
    end.
Proof. destruct r; reflexivity. Qed.

Lemma route_by_roles_many (roles : list string) :
  (2 <= length roles)%nat -> route_by_roles roles = "/select-role".
Proof.
  destruct roles as [|r1 [|r2 roles]]; simpl; try lia. reflexivity.
Qed.

(** Whatever the backend answers, [checkAuth] only reads. *)
Lemma checkAuth_only_reads {S : Type} (exec : forall o : op, S -> resp o * S)
  (s : S) :
  forallb (fun e => is_read (ev_op e)) (snd (run exec checkAuth s)) = true.
Proof.
  unfold checkAuth. simpl.
  destruct (exec getSession s) as [[user_id|] s1]; simpl; [|reflexivity].
  destruct (exec (select_roles user_id) s1) as [r s2]. reflexivity.
Qed.

(** [checkAuth] for a signed-in caller, on the hosted backend. *)
Lemma checkAuth_run (b : backend) (user_id : uuid) :
  be_session b = Some user_id ->
  let roles :=
    map ur_role (List.filter (fun r => ur_user_id r =? user_id)
                             (user_roles (be_db b))) in
  run supabase checkAuth b
  = ([navigate (route_by_roles (map role_name roles)); setLoading false], b,
     [existT getSession (Some user_id);
      existT (select_roles user_id) (Ok roles)]).
Proof.
  intros Hs roles. unfold checkAuth. simpl. rewrite Hs. simpl. rewrite !Hs.
  rewrite select_user_roles_own. reflexivity.
Qed.

(** C5. For a signed-in caller [checkAuth] reads the session and then all
    role rows of the caller, and navigates: with no role to [/auth]; with
    exactly one role to that role's dashboard; with more than one to
    [/select-role]. It leaves the backend as it found it, and against any
    backend it issues reads only. *)
Theorem checkAuth_routes (b : backend) (user_id : uuid) :
  be_session b = Some user_id ->
  let roles :=
    map ur_role (List.filter (fun r => ur_user_id r =? user_id)
                             (user_roles (be_db b))) in
  let dest := route_by_roles (map role_name roles) in
  run supabase checkAuth b
  = ([navigate dest; setLoading false], b,
     [existT getSession (Some user_id);
      existT (select_roles user_id) (Ok roles)])
  /\ (roles = [] -> dest = "/auth")
  /\ (forall r, roles = [r] ->
      dest = match r with
             | citizen => "/citizen"
             | officer => "/officer"
             | admin => "/admin"
             end)
  /\ ((2 <= length roles)%nat -> dest = "/select-role")
  /\ (forall (S : Type) (exec : forall o : op, S -> resp o * S) (s : S),
        forallb (fun e => is_read (ev_op e)) (snd (run exec checkAuth s))
        = true).
Proof.
  intros Hs roles dest. repeat apply conj.
  - now apply checkAuth_run.
  - subst dest. intros ->. reflexivity.
  - subst dest. intros r ->. apply route_by_roles_single.
  - subst dest. intros H. apply route_by_roles_many. now rewrite length_map.
  - intros. apply checkAuth_only_reads.
Qed.

Lemma checkAuth_routes_witness :
  be_session (signed_in "asha" office_db) = Some "asha"
  /\ fst (fst (run supabase checkAuth (signed_in "asha" office_db)))
     = [navigate "/citizen"; setLoading false].
Proof.
  split; [reflexivity|].
  destruct (checkAuth_routes (signed_in "asha" office_db) "asha" eq_refl)
    as (H & _).
  rewrite H. reflexivity.
Defined.

(** Without a session [checkAuth] sends the visitor to [/auth]. *)
Lemma checkAuth_no_session (b : backend) :
  be_session b = None -> run supabase checkAuth b
                         = ([navigate "/auth"], b, [existT getSession None]).
Proof. intros H. unfold checkAuth. simpl. rewrite H. reflexivity. Qed.

(** The selector shows its cards to a user with several roles and does not
    navigate by itself. *)
Lemma checkUserRoles_many (b : backend) (user_id : uuid) :
  be_session b = Some user_id ->
  let roles :=
    map ur_role (List.filter (fun r => ur_user_id r =? user_id)
                             (user_roles (be_db b))) in
  (2 <= length roles)%nat ->
  run supabase checkUserRoles b
  = ([setRoles (map role_name roles); setLoading false], b,
     [existT getUser (Some user_id);
      existT (select_roles user_id) (Ok roles)]).
Proof.
  intros Hs roles Hlen. unfold checkUserRoles. simpl. rewrite Hs. simpl.
  rewrite !Hs, select_user_roles_own. fold roles.
  rewrite length_map.
  destruct roles as [|r1 [|r2 rest]]; simpl in Hlen; try lia. reflexivity.
Qed.

Lemma land_step {S : Type} (exec : forall o : op, S -> resp o * S)
  (fuel : nat) (path : string) (s : S) :
  land exec (Datatypes.S fuel) path s
  = let '(acts, s', _) := run exec (on_mount (route path)) s in
    match navigated acts with
    | Some next => land exec fuel next s'
    | None => Some path
    end.
Proof. reflexivity. Qed.

(** A user with several roles who opens [/], which is also where the
    selector's citizen card leads, ends on the selector. *)
Lemma index_lands_on_selector (b : backend) (user_id : uuid) (fuel : nat) :
  be_session b = Some user_id ->
  (2 <= length (List.filter (fun r => String.eqb (ur_user_id r) user_id)
                            (user_roles (be_db b))))%nat ->
  land supabase (Datatypes.S (Datatypes.S fuel)) "/" b = Some "/select-role".
Proof.
  intros Hs Hlen.
  pose proof (checkAuth_run b user_id Hs) as Hrun. cbv zeta in Hrun.
  assert (Hmany : route_by_roles
                    (map role_name
                       (map ur_role
                          (List.filter (fun r => ur_user_id r =? user_id)
                                       (user_roles (be_db b)))))
                  = "/select-role").
  { apply route_by_roles_many. now rewrite !length_map. }
  rewrite land_step. change (on_mount (route "/")) with checkAuth.
  rewrite Hrun, Hmany. cbv beta iota.
  change (navigated [navigate "/select-role"; setLoading false])
    with (Some "/select-role").
  cbv beta iota. rewrite land_step.
  change (on_mount (route "/select-role")) with checkUserRoles.
  rewrite (checkUserRoles_many b user_id Hs); [reflexivity|].
  now rewrite length_map.
Qed.

(** C6, evaluated. ["meera"] is citizen and officer: [/] sends her to the
    selector, which shows the two cards. The officer card leads to
    [/officer], where she stays. The citizen card leads to [/], from where
    she is sent to the selector again; [/citizen], where she could stay, is
    not what the card navigates to. *)
Theorem citizen_card_returns_to_selector :
  let b := signed_in "meera" office_db in
  navigated (fst (fst (run supabase checkAuth b))) = Some "/select-role"
  /\ fst (fst (run supabase checkUserRoles b))
     = [setRoles ["citizen"; "officer"]; setLoading false]
  /\ selector_cards ["citizen"; "officer"] = ["citizen"; "officer"]
  /\ redirectToRole "officer" = [navigate "/officer"]
  /\ land supabase 4 "/officer" b = Some "/officer"
  /\ redirectToRole "citizen" = [navigate "/"]
  /\ land supabase 4 "/" b = Some "/select-role"
  /\ land supabase 4 "/citizen" b = Some "/citizen"
  /\ dashboard_of "citizen" = "/citizen".
Proof. repeat split. Qed.

(** ** Submission *)

Lemma not_files_supplied (files : js_object file) (doc : string) :
  own_property files doc <> None -> not_files files doc = false.
Proof.
  unfold not_files. destruct (own_property files doc); congruence.
Qed.

Lemma not_files_plain (files : js_object file) (doc : string) :
  inherited doc = false ->
  (not_files files doc = true <-> own_property files doc = None).
Proof.
  intros H. unfold not_files. rewrite H.
  destruct (own_property files doc); simpl; split; congruence.
Qed.

Lemma missingDocs_none (svc : service) (files : js_object file) :
  (forall doc, In doc (required_documents svc) ->
               own_property files doc <> None) ->
  missingDocs svc files = [].
Proof.
  unfold missingDocs.
  induction (required_documents svc) as [|doc docs IH]; intros H;
    [reflexivity|].
  simpl. rewrite not_files_supplied by (apply H; now left).
  apply IH. intros d Hd. apply H. now right.
Qed.

(** A submission with a missing document awaits nothing: the handler is
    the error notification and nothing else. *)
Lemma handleSubmit_blocked (getPublicUrl : string -> string)
  (now : timestamp) (svc : service) (files : js_object file) :
  missingDocs svc files <> [] ->
  handleSubmit getPublicUrl now (Some svc) files
  = Ret [toast_error ("Please upload: " +:+ join ", " (missingDocs svc files))].
Proof.
  intros H. unfold handleSubmit.
  destruct (missingDocs svc files); [congruence|reflexivity].
Qed.

(** X21. For labels that are no inherited property names, one label
    without a file is enough to block the submission before any request,
    against any backend, and the notification lists exactly the labels
    without a file. *)
Lemma missing_document_blocks_submission {S : Type}
  (exec : forall o : op, S -> resp o * S) (s : S)
  (getPublicUrl : string -> string) (now : timestamp) (svc : service)
  (files : js_object file) (doc : string) :
  (forall d, In d (required_documents svc) -> inherited d = false) ->
  In doc (required_documents svc) ->
  own_property files doc = None ->
  let missing :=
    List.filter (fun d => match own_property files d with
                          | Some _ => false
                          | None => true
                          end) (required_documents svc) in
  run exec (handleSubmit getPublicUrl now (Some svc) files) s
  = ([toast_error ("Please upload: " +:+ join ", " missing)], s, []).
Proof.
  intros Hplain Hin Hnone missing.
  assert (Hm : missingDocs svc files = missing).
  { unfold missingDocs, missing. apply filter_ext_in. intros d Hd.
    unfold not_files. rewrite (Hplain d Hd).
    destruct (own_property files d); reflexivity. }
  rewrite handleSubmit_blocked; [now rewrite Hm|].
  intros Hnil. unfold missingDocs in Hnil.
  assert (Hd : In doc (List.filter (not_files files) (required_documents svc))).
  { apply filter_In. split; [assumption|].
    apply not_files_plain; auto. }
  rewrite Hnil in Hd. destruct Hd.
Qed.

(** The empty object has no own property ["constructor"] and yet
    [files["constructor"]] is truthy: such a label never counts as
    missing. None of the labels of the seeded services is inherited. *)
Example not_files_inherited :
  own_property ([] : js_object file) "constructor" = None
  /\ not_files ([] : js_object file) "constructor" = false.
Proof. split; reflexivity. Qed.




(** *** The order of the requests *)



Section Submission.
Context {S : Type}.
Variable exec : forall o : op, S -> resp o * S.
Variable getPublicUrl : string -> string.
Variables user_id application_id : uuid.

End Submission.

(** *** What the complete sequence contains *)











(** Scenario C on the hosted backend: ["asha"] applies for the residence
    certificate (fee 50.00) with both documents. One pending application,
    two stored files with their two document rows, and one completed
    payment of the fee exist afterwards. *)
Example asha_applies :
  let x := run supabase
               (handleSubmit public_url 9%N (Some residence_certificate)
                             both_files)
               (signed_in "asha" office_db) in
  map (fun a => (app_id a, citizen_id a, app_service_id a, status a,
                 completed_on a))
      (applications (db_after x))
  = [("app-1", "asha", "svc-residence", pending, None)]
  /\ map fst (storage_objects (db_after x))
     = ["asha/app-1/Aadhaar Card.pdf"; "asha/app-1/Address Proof.jpg"]
  /\ map (fun d => (doc_application_id d, doc_type d, doc_file_name d,
                    doc_file_url d))
         (documents (db_after x))
     = [("app-1", "Aadhaar Card", "aadhaar.pdf",
         public_url "asha/app-1/Aadhaar Card.pdf");
        ("app-1", "Address Proof", "bill.scan.jpg",
         public_url "asha/app-1/Address Proof.jpg")]
  /\ map (fun p => (pay_application_id p, amount p, pay_status p))
         (payments (db_after x))
     = [("app-1", 5000%Z, payment_completed)]
  /\ forallb ev_ok (snd x) = true.
Proof. repeat split. Qed.

(** Scenario B: with only the first document chosen the handler awaits no
    request and names the second. *)
Example asha_forgets_address_proof :
  handleSubmit public_url 9%N (Some residence_certificate)
               [("Aadhaar Card",
                 {| file_name := "aadhaar.pdf"; file_bytes := "%PDF" |})]
  = Ret [toast_error "Please upload: Address Proof"].
Proof. reflexivity. Qed.

(** ** The [files] state *)

Lemma own_property_replace_own {V} (o : js_object V) (k k' : string) (v : V) :
  own_property o k <> None ->
  own_property (replace_own o k v) k'
  = if k =? k' then Some v else own_property o k'.
Proof.
  induction o as [|[k0 v0] o IH]; simpl; [congruence|].
  destruct (String.eqb_spec k0 k) as [->|Hne]; intros H; simpl.
  - destruct (k =? k'); reflexivity.
  - rewrite (IH H).
    destruct (String.eqb_spec k0 k') as [->|_]; [|reflexivity].
    destruct (String.eqb_spec k k'); congruence.
Qed.

Lemma own_keys_replace_own {V} (o : js_object V) (k : string) (v : V) :
  own_keys (replace_own o k v) = own_keys o.
Proof.
  induction o as [|[k0 v0] o IH]; simpl; [reflexivity|].
  destruct (String.eqb_spec k0 k) as [->|_]; simpl; [reflexivity|].
  f_equal. exact IH.
Qed.

Lemma own_property_insert_index {V} (o : js_object V) (n : N) (k k' : string)
  (v : V) :
  own_property o k = None ->
  own_property (insert_index n k v o) k'
  = if k =? k' then Some v else own_property o k'.
Proof.
  induction o as [|[k0 v0] o IH]; simpl; [reflexivity|].
  destruct (String.eqb_spec k0 k) as [->|Hne]; [discriminate|]. intros H.
  destruct (array_index k0) as [m|]; [destruct (m <? n)%N|]; simpl;
    try reflexivity.
  rewrite (IH H).
  destruct (String.eqb_spec k0 k') as [->|_]; [|reflexivity].
  destruct (String.eqb_spec k k'); congruence.
Qed.

Lemma own_property_app_new {V} (o : js_object V) (k k' : string) (v : V) :
  own_property o k = None ->
  own_property (o ++ [(k, v)]) k'
  = if k =? k' then Some v else own_property o k'.
Proof.
  induction o as [|[k0 v0] o IH]; simpl; [reflexivity|].
  destruct (String.eqb_spec k0 k) as [->|Hne]; [discriminate|]. intros H.
  rewrite (IH H).
  destruct (String.eqb_spec k0 k') as [->|_]; [|reflexivity].
  destruct (String.eqb_spec k k'); congruence.
Qed.

Lemma own_property_delete {V} (o : js_object V) (k k' : string) :
  own_property (delete_property o k) k'
  = if k =? k' then None else own_property o k'.
Proof.
  induction o as [|[k0 v0] o IH]; simpl.
  - now destruct (k =? k').
  - destruct (String.eqb_spec k0 k) as [->|Hne]; simpl.
    + rewrite IH. destruct (String.eqb_spec k k'); [reflexivity|].
      destruct (String.eqb_spec k k'); congruence.
    + rewrite IH. destruct (String.eqb_spec k0 k') as [->|_]; [|reflexivity].
      destruct (String.eqb_spec k k'); congruence.
Qed.

Lemma own_property_none_keys {V} (o : js_object V) (k : string) :
  own_property o k = None <-> ~ In k (own_keys o).
Proof.
  induction o as [|[k0 v0] o IH]; simpl; [tauto|].
  destruct (String.eqb_spec k0 k) as [->|Hne].
  - split; [discriminate|tauto].
  - rewrite IH. tauto.
Qed.

Lemma own_keys_insert_index {V} (o : js_object V) (n : N) (k x : string)
  (v : V) :
  In x (own_keys (insert_index n k v o)) <-> x = k \/ In x (own_keys o).
Proof.
  induction o as [|[k0 v0] o IH]; simpl; [intuition congruence|].
  destruct (array_index k0) as [m|]; [destruct (m <? n)%N|]; simpl;
    rewrite ?IH; intuition congruence.
Qed.

Lemma NoDup_insert_index {V} (o : js_object V) (n : N) (k : string) (v : V) :
  ~ In k (own_keys o) -> List.NoDup (own_keys o) ->
  List.NoDup (own_keys (insert_index n k v o)).
Proof.
  induction o as [|[k0 v0] o IH]; simpl; intros Hk Hnd.
  - constructor; [intros []|constructor].
  - apply List.NoDup_cons_iff in Hnd as [H0 Hnd].
    destruct (array_index k0) as [m|]; [destruct (m <? n)%N|]; simpl.
    + constructor; [|apply IH; tauto].
      rewrite own_keys_insert_index. intuition congruence.
    + constructor; [simpl; tauto|]. now constructor.
    + constructor; [simpl; tauto|]. now constructor.
Qed.

Lemma listed_in_order_weaken {V} (o : js_object V) (b b' : N) :
  (b <= b')%N -> listed_in_order b' o = true -> listed_in_order b o = true.
Proof.
  destruct o as [|[k v] o]; simpl; [reflexivity|]. intros Hb.
  destruct (array_index k) as [n|]; [|trivial].
  rewrite !andb_true_iff, !N.leb_le. intuition lia.
Qed.

Lemma listed_in_order_plain {V} (o : js_object V) (b : N) :
  forallb (fun e => match array_index (fst e) with
                    | Some _ => false
                    | None => true
                    end) o = true ->
  listed_in_order b o = true.
Proof.
  destruct o as [|[k v] o]; simpl; [reflexivity|].
  destruct (array_index k); [discriminate|trivial].
Qed.

Lemma listed_in_order_insert_index {V} (o : js_object V) (b n : N)
  (k : string) (v : V) :
  array_index k = Some n -> (b <= n)%N ->
  listed_in_order b o = true ->
  listed_in_order b (insert_index n k v o) = true.
Proof.
  intros Hk. revert b.
  induction o as [|[k0 v0] o IH]; intros b Hb;
    cbn [insert_index listed_in_order].
  - rewrite Hk. intros _. rewrite andb_true_r. now apply N.leb_le.
  - destruct (array_index k0) as [m|] eqn:E0.
    + destruct (N.ltb_spec m n) as [Hlt|Hge]; cbn [listed_in_order].
      * rewrite E0, !andb_true_iff. intros [H1 H2]. split; [exact H1|].
        apply IH; [lia|exact H2].
      * rewrite Hk. cbn [listed_in_order]. rewrite ?E0.
        rewrite !andb_true_iff, !N.leb_le. intros [H1 H2].
        repeat split; try lia. exact H2.
    + cbn [listed_in_order]. rewrite Hk. cbn [listed_in_order]. rewrite ?E0.
      intros H. rewrite andb_true_iff, N.leb_le.
      split; [lia|]. exact H.
Qed.

Lemma listed_in_order_app_plain {V} (o : js_object V) (b : N) (k : string)
  (v : V) :
  array_index k = None ->
  listed_in_order b o = true -> listed_in_order b (o ++ [(k, v)]) = true.
Proof.
  intros Hk. revert b. induction o as [|[k0 v0] o IH]; intros b; simpl.
  - now rewrite Hk.
  - destruct (array_index k0) as [m|].
    + rewrite !andb_true_iff. intros [H1 H2]. split; [exact H1|now apply IH].
    + intros H. rewrite List.forallb_app, H. simpl. now rewrite Hk.
Qed.

Lemma listed_in_order_filter {V} (p : string * V -> bool) (o : js_object V)
  (b : N) :
  listed_in_order b o = true -> listed_in_order b (List.filter p o) = true.
Proof.
  revert b. induction o as [|[k0 v0] o IH]; intros b; simpl; [trivial|].
  destruct (array_index k0) as [m|] eqn:E0.
  - rewrite andb_true_iff, N.leb_le. intros [H1 H2].
    destruct (p (k0, v0)); simpl.
    + rewrite E0, andb_true_iff, N.leb_le. split; [exact H1|now apply IH].
    + apply listed_in_order_weaken with (b' := m); [exact H1|now apply IH].
  - intros H.
    assert (Hf : forallb (fun e => match array_index (fst e) with
                                   | Some _ => false
                                   | None => true
                                   end) (List.filter p o) = true).
    { apply forallb_forall. intros e He. apply filter_In in He as [He _].
      rewrite forallb_forall in H. now apply H. }
    destruct (p (k0, v0)); simpl.
    + now rewrite E0.
    + now apply listed_in_order_plain.
Qed.

Lemma own_keys_filter_NoDup {V} (p : string * V -> bool) (o : js_object V) :
  List.NoDup (own_keys o) -> List.NoDup (own_keys (List.filter p o)).
Proof.
  induction o as [|[k0 v0] o IH]; simpl; intros Hnd; [constructor|].
  apply List.NoDup_cons_iff in Hnd as [H0 Hnd].
  destruct (p (k0, v0)); simpl; [|now apply IH].
  constructor; [|now apply IH].
  intros Hin. apply H0. unfold own_keys in *.
  apply in_map_iff in Hin as (e & He & Hin). apply filter_In in Hin as [Hin _].
  apply in_map_iff. eauto.
Qed.

Lemma forallb_keys {V} (g : string -> bool) (o1 o2 : js_object V) :
  own_keys o1 = own_keys o2 ->
  forallb (fun e => g (fst e)) o1 = forallb (fun e => g (fst e)) o2.
Proof.
  revert o2. induction o1 as [|[k1 v1] o1 IH]; intros [|[k2 v2] o2]; simpl;
    try discriminate; [reflexivity|].
  intros [= <- Hkeys]. f_equal. now apply IH.
Qed.

Lemma listed_in_order_keys {V} (o1 o2 : js_object V) (b : N) :
  own_keys o1 = own_keys o2 -> listed_in_order b o1 = listed_in_order b o2.
Proof.
  revert o2 b.
  induction o1 as [|[k1 v1] o1 IH]; intros [|[k2 v2] o2] b; simpl;
    try discriminate; [reflexivity|].
  intros [= <- Hkeys]. destruct (array_index k1).
  - f_equal. now apply IH.
  - now apply (forallb_keys (fun k => match array_index k with
                                      | Some _ => false
                                      | None => true
                                      end)).
Qed.

Lemma own_property_handleFileChange (files : js_object file)
  (docType : string) (chosen : option file) (k : string) :
  own_property (handleFileChange files docType chosen) k
  = if docType =? k then chosen else own_property files k.
Proof.
  destruct chosen as [f|]; simpl.
  - unfold define_property.
    destruct (own_property files docType) as [old|] eqn:E.
    + apply own_property_replace_own. congruence.
    + destruct (array_index docType).
      * now apply own_property_insert_index.
      * now apply own_property_app_new.
  - apply own_property_delete.
Qed.

Lemma handleFileChange_keeps_form (files : js_object file) (docType : string)
  (chosen : option file) :
  List.NoDup (own_keys files) /\ listed_in_order 0 files = true ->
  List.NoDup (own_keys (handleFileChange files docType chosen))
  /\ listed_in_order 0 (handleFileChange files docType chosen) = true.
Proof.
  intros [Hnd Hord]. destruct chosen as [f|]; simpl.
  - unfold define_property.
    destruct (own_property files docType) as [old|] eqn:E.
    + split.
      * now rewrite own_keys_replace_own.
      * rewrite <- Hord. apply listed_in_order_keys.
        apply own_keys_replace_own.
    + apply own_property_none_keys in E.
      destruct (array_index docType) as [n|] eqn:En.
      * split; [now apply NoDup_insert_index|].
        apply listed_in_order_insert_index; [exact En|lia|exact Hord].
      * split; [|now apply listed_in_order_app_plain].
        unfold own_keys. rewrite List.map_app. simpl.
        apply List.NoDup_app; [assumption| |].
        -- constructor; [intros []|constructor].
        -- intros x Hx [<-|[]]. now apply E.
  - split.
    + now apply own_keys_filter_NoDup.
    + now apply listed_in_order_filter.
Qed.

(** X1. Choosing a file for a label, or clearing the label, changes what
    [files] holds for that label and for no other: afterwards the label
    reads the chosen file (nothing when cleared) and every other label
    reads what it read before. *)
Theorem handleFileChange_lookup (files : js_object file) (docType : string)
  (chosen : option file) (k : string) :
  own_property (handleFileChange files docType chosen) k
  = if docType =? k then chosen else own_property files k.
Proof. apply own_property_handleFileChange. Qed.

(** X2. Whatever files the user chooses and clears, in whatever order,
    the [files] state holds each label once and lists its labels the way
    an object does: array indices first, ascending, then the others. *)
Theorem files_state_well_formed (changes : list (string * option file)) :
  List.NoDup (own_keys (files_after changes))
  /\ listed_in_order 0 (files_after changes) = true.
Proof.
  unfold files_after.
  assert (H : forall start : js_object file,
             List.NoDup (own_keys start) /\ listed_in_order 0 start = true ->
             List.NoDup
               (own_keys
                  (fold_left (fun files change =>
                                handleFileChange files (fst change)
                                                 (snd change))
                             changes start))
             /\ listed_in_order 0
                  (fold_left (fun files change =>
                                handleFileChange files (fst change)
                                                 (snd change))
                             changes start) = true).
  { induction changes as [|[doc chosen] changes IH]; intros start Hstart;
      [exact Hstart|].
    simpl. apply IH. now apply handleFileChange_keeps_form. }
  apply H. split; [constructor|reflexivity].
Qed.

Lemma not_files_handleFileChange (files : js_object file) (docType : string)
  (chosen : option file) (d : string) :
  not_files (handleFileChange files docType chosen) d
  = if docType =? d
    then match chosen with
         | Some _ => false
         | None => negb (inherited d)
         end
    else not_files files d.
Proof.
  unfold not_files. rewrite own_property_handleFileChange.
  destruct (docType =? d); [|reflexivity]. now destruct chosen.
Qed.

(** X3. After a file is chosen for a label, that label is no longer
    reported missing and the other labels are reported as before. After a
    label is cleared it is reported missing exactly when the service
    requires it and it is not a name every object inherits. *)
Theorem missingDocs_after_change (svc : service) (files : js_object file)
  (docType : string) :
  (forall f,
      missingDocs svc (handleFileChange files docType (Some f))
      = List.filter (fun d => negb (docType =? d)) (missingDocs svc files))
  /\ (In docType (missingDocs svc (handleFileChange files docType None))
      <-> In docType (required_documents svc) /\ inherited docType = false)
  /\ (forall d, d <> docType ->
        (In d (missingDocs svc (handleFileChange files docType None))
         <-> In d (missingDocs svc files))).
Proof.
  unfold missingDocs. split; [|split].
  - intros f. induction (required_documents svc) as [|d ds IH];
      [reflexivity|].
    cbn [List.filter]. rewrite not_files_handleFileChange.
    destruct (String.eqb_spec docType d) as [->|Hne].
    + destruct (not_files files d); cbn [List.filter];
        rewrite ?String.eqb_refl; exact IH.
    + destruct (not_files files d); cbn [List.filter].
      * destruct (String.eqb_spec docType d); [congruence|].
        cbn [negb]. now rewrite IH.
      * exact IH.
  - rewrite filter_In, not_files_handleFileChange, String.eqb_refl.
    now rewrite negb_true_iff.
  - intros d Hne. rewrite !filter_In, not_files_handleFileChange.
    destruct (String.eqb_spec docType d); [congruence|reflexivity].
Qed.

(** ** Paths in the bucket *)

Lemma split_on_not_nil (c : ascii) (s : string) : split_on c s <> [].
Proof.
  destruct s as [|a s]; simpl; [discriminate|].
  destruct (Ascii.eqb a c); [discriminate|].
  destruct (split_on c s); discriminate.
Qed.

Lemma split_on_free (c : ascii) (s : string) (seg : string) :
  In seg (split_on c s) -> has_char c seg = false.
Proof.
  revert seg. induction s as [|a s IH]; simpl; intros seg.
  - intros [<-|[]]. reflexivity.
  - destruct (Ascii.eqb a c) eqn:E.
    + intros [<-|H]; [reflexivity|now apply IH].
    + destruct (split_on c s) as [|h t]; simpl.
      * intros [<-|[]]. simpl. now rewrite E.
      * intros [<-|H].
        -- simpl. rewrite E. apply IH. now left.
        -- apply IH. now right.
Qed.

Lemma split_on_none (c : ascii) (s : string) :
  has_char c s = false -> split_on c s = [s].
Proof.
  induction s as [|a s IH]; simpl; [reflexivity|].
  destruct (Ascii.eqb a c); [discriminate|]. simpl. intros H.
  now rewrite (IH H).
Qed.

Lemma split_on_some (c : ascii) (s : string) :
  has_char c s = true -> exists h1 h2 t, split_on c s = h1 :: h2 :: t.
Proof.
  induction s as [|a s IH]; simpl; [discriminate|].
  destruct (Ascii.eqb a c); simpl.
  - intros _. destruct (split_on c s) as [|h t] eqn:E.
    + now apply split_on_not_nil in E.
    + now exists "", h, t.
  - intros H. destruct (IH H) as (h1 & h2 & t & ->).
    now exists (String a h1), h2, t.
Qed.

Lemma split_on_prefix (c : ascii) (u rest : string) :
  has_char c u = false ->
  split_on c (u +:+ String c rest) = u :: split_on c rest.
Proof.
  induction u as [|a u IH]; simpl.
  - intros _. now rewrite Ascii.eqb_refl.
  - destruct (Ascii.eqb a c); [discriminate|]. simpl. intros H.
    now rewrite (IH H).
Qed.

Lemma has_char_app (c : ascii) (s1 s2 : string) :
  has_char c (s1 +:+ s2) = has_char c s1 || has_char c s2.
Proof.
  induction s1 as [|a s1 IH]; simpl; [reflexivity|].
  now rewrite IH, orb_assoc.
Qed.

Lemma last_cons_more {A} (x y : A) (l : list A) (d : A) :
  List.last (x :: y :: l) d = List.last (y :: l) d.
Proof. reflexivity. Qed.

(** The last segment of a text and what is in front of it. *)
Lemma split_on_last (c : ascii) (s : string) :
  (has_char c s = false /\ pop_text (split_on c s) = s)
  \/ (has_char c s = true
      /\ exists stem, s = stem +:+ String c (pop_text (split_on c s))).
Proof.
  unfold pop_text. induction s as [|a s IH]; [now left|].
  cbn [split_on has_char].
  destruct (Ascii.eqb_spec a c) as [->|Hne]; cbn [orb].
  - right. split; [reflexivity|].
    destruct (split_on c s) as [|h t] eqn:E;
      [now apply split_on_not_nil in E|].
    rewrite last_cons_more.
    destruct IH as [[_ IH]|[_ [stem IH]]].
    + exists "". change (String c s = String c (List.last (h :: t) "undefined")).
      now rewrite IH.
    + exists (String c stem).
      change (String c s
              = String c (stem +:+ String c (List.last (h :: t) "undefined"))).
      now f_equal.
  - destruct (has_char c s) eqn:Hc.
    + right. split; [reflexivity|].
      destruct (split_on_some c s Hc) as (h1 & h2 & t & E). rewrite E in *.
      rewrite last_cons_more. rewrite last_cons_more in IH.
      destruct IH as [[IH _]|[_ [stem IH]]]; [discriminate|].
      exists (String a stem).
      change (String a s
              = String a (stem +:+ String c (List.last (h2 :: t) "undefined"))).
      now f_equal.
    + left. split; [reflexivity|]. rewrite (split_on_none c s Hc).
      reflexivity.
Qed.

Lemma append_cancel (x y z : string) : x +:+ y = x +:+ z -> y = z.
Proof.
  induction x as [|a x IH]; simpl; [trivial|]. intros [= H]. now apply IH.
Qed.

Lemma rightmost_cut_unique (c : ascii) (d1 d2 e1 e2 : string) :
  has_char c e1 = false -> has_char c e2 = false ->
  d1 +:+ String c e1 = d2 +:+ String c e2 -> d1 = d2 /\ e1 = e2.
Proof.
  intros H1 H2. revert d2.
  induction d1 as [|a d1 IH]; intros [|b d2]; simpl.
  - intros [= ->]. now split.
  - intros [= <- ->]. rewrite has_char_app in H1. simpl in H1.
    rewrite Ascii.eqb_refl, orb_true_r in H1. discriminate.
  - intros [= -> <-]. rewrite has_char_app in H2. simpl in H2.
    rewrite Ascii.eqb_refl, orb_true_r in H2. discriminate.
  - intros [= <- H]. destruct (IH d2 H) as [-> ->]. now split.
Qed.

Lemma fileExt_free (f : file) : has_char "." (fileExt f) = false.
Proof.
  unfold fileExt, pop_text.
  apply split_on_free with (s := file_name f).
  destruct (@List.exists_last _ (split_on "." (file_name f))
              (split_on_not_nil _ _)) as (l' & x & Hx).
  rewrite Hx, List.last_last. apply in_or_app. right. now left.
Qed.

Lemma fileName_first_folder (user_id application_id docType : string)
  (f : file) :
  has_char "/" user_id = false ->
  first_folder (fileName user_id application_id docType f) = Some user_id.
Proof.
  intros H. unfold first_folder, fileName.
  change (user_id +:+ "/" +:+ application_id +:+ "/" +:+ docType +:+ "."
          +:+ fileExt f)
    with (user_id +:+ String "/" (application_id +:+ "/" +:+ docType +:+ "."
                                  +:+ fileExt f)).
  rewrite (split_on_prefix "/" user_id _ H).
  destruct (split_on "/" _) as [|h t] eqn:E;
    [now apply split_on_not_nil in E|reflexivity].
Qed.

Lemma fileName_label (user_id application_id d1 d2 : string) (f1 f2 : file) :
  fileName user_id application_id d1 f1 = fileName user_id application_id d2 f2
  -> d1 = d2.
Proof.
  unfold fileName. intros H.
  do 4 apply append_cancel in H.
  now apply (rightmost_cut_unique "." d1 d2 (fileExt f1) (fileExt f2)
               (fileExt_free f1) (fileExt_free f2)).
Qed.

(** X4. The extension in a bucket path is what follows the last dot of
    the file's name and holds no dot itself; a name without a dot is taken
    whole as its own extension. *)
Theorem fileExt_cut (f : file) :
  has_char "." (fileExt f) = false
  /\ ((has_char "." (file_name f) = false /\ fileExt f = file_name f)
      \/ (has_char "." (file_name f) = true
          /\ exists stem, file_name f = stem +:+ "." +:+ fileExt f)).
Proof.
  split; [apply fileExt_free|].
  unfold fileExt. exact (split_on_last "." (file_name f)).
Qed.

(** X5. Within one application, files chosen for different labels never
    get the same bucket path, whatever the files are called. *)
Theorem fileName_distinct (user_id application_id d1 d2 : string)
  (f1 f2 : file) :
  d1 <> d2 ->
  fileName user_id application_id d1 f1
  <> fileName user_id application_id d2 f2.
Proof. intros Hne H. apply Hne. exact (fileName_label _ _ _ _ _ _ H). Qed.

Lemma fileName_distinct_witness :
  "Aadhaar Card" <> "Address Proof"
  /\ fileName "asha" "app-1" "Aadhaar Card"
              {| file_name := "scan.pdf"; file_bytes := "" |}
     <> fileName "asha" "app-1" "Address Proof"
                 {| file_name := "scan.pdf"; file_bytes := "" |}.
Proof.
  assert (H : "Aadhaar Card" <> "Address Proof") by discriminate.
  split; [exact H|]. exact (fileName_distinct _ _ _ _ _ _ H).
Defined.

(** X6. The path a submission builds lies in the caller's own folder: for
    a user identifier without a slash the storage policy admits the
    caller's upload unless an object with that path exists, and it rejects
    the same upload from any other user and from an anonymous caller,
    leaving the bucket as it was. *)
Theorem submission_path_policy (d : database)
  (user_id application_id docType : string) (f : file) :
  has_char "/" user_id = false ->
  let path := fileName user_id application_id docType f in
  (existsb (fun o => fst o =? path) (storage_objects d) = false ->
   storage_upload d (Some user_id) path f
   = (Ok tt, set_storage_objects (storage_objects d ++ [(path, f)]) d))
  /\ (existsb (fun o => fst o =? path) (storage_objects d) = true ->
      storage_upload d (Some user_id) path f
      = (Err "The resource already exists", d))
  /\ (forall other, other <> user_id ->
        storage_upload d (Some other) path f
        = (Err "new row violates row-level security policy", d))
  /\ storage_upload d None path f
     = (Err "new row violates row-level security policy", d).
Proof.
  intros H path.
  pose proof (fileName_first_folder user_id application_id docType f H) as Hf.
  fold path in Hf. unfold storage_upload. rewrite Hf.
  rewrite String.eqb_refl. simpl. repeat apply conj.
  - now intros ->.
  - now intros ->.
  - intros other Hne. destruct (String.eqb_spec other user_id); [congruence|].
    reflexivity.
  - reflexivity.
Qed.

Lemma submission_path_policy_witness :
  has_char "/" "asha" = false
  /\ storage_upload office_db (Some "omkar")
       (fileName "asha" "app-1" "Aadhaar Card"
                 {| file_name := "scan.pdf"; file_bytes := "" |})
       {| file_name := "scan.pdf"; file_bytes := "" |}
     = (Err "new row violates row-level security policy", office_db).
Proof.
  split; [reflexivity|].
  destruct (submission_path_policy office_db "asha" "app-1" "Aadhaar Card"
              {| file_name := "scan.pdf"; file_bytes := "" |} eq_refl)
    as (_ & _ & Hother & _).
  apply Hother. discriminate.
Defined.

(** ** What a submission leaves at the backend *)

Lemma extends_refl (d : database) : extends d d.
Proof.
  unfold extends. repeat split; try (exists []; now rewrite List.app_nil_r).
Qed.

Lemma extends_trans (d1 d2 d3 : database) :
  extends d1 d2 -> extends d2 d3 -> extends d1 d3.
Proof.
  unfold extends.
  intros (Ha & Hp & Hr & Hs & [a1 Happ] & [c1 Hdoc] & [p1 Hpay] & [o1 Hobj])
         (Ha' & Hp' & Hr' & Hs' & [a2 Happ'] & [c2 Hdoc'] & [p2 Hpay']
          & [o2 Hobj']).
  repeat split; try congruence.
  - exists (a1 ++ a2). now rewrite Happ', Happ, List.app_assoc.
  - exists (c1 ++ c2). now rewrite Hdoc', Hdoc, List.app_assoc.
  - exists (p1 ++ p2). now rewrite Hpay', Hpay, List.app_assoc.
  - exists (o1 ++ o2). now rewrite Hobj', Hobj, List.app_assoc.
Qed.

Ltac extends_by_one :=
  unfold extends; simpl;
  repeat split; try (exists []; now rewrite List.app_nil_r); eauto.

Lemma insert_application_extends (d : database) (uid : option uuid)
  (now : timestamp) (new_id citizen_ service_ : uuid) (status_ : string) :
  extends d (snd (insert_application d uid now new_id citizen_ service_
                                     status_)).
Proof.
  unfold insert_application.
  destruct (parse_status status_); [|apply extends_refl].
  repeat match goal with
         | |- context [if ?c then _ else _] =>
             destruct c; [apply extends_refl|]
         end.
  extends_by_one.
Qed.

Lemma storage_upload_extends (d : database) (uid : option uuid)
  (path : string) (f : file) :
  extends d (snd (storage_upload d uid path f)).
Proof.
  unfold storage_upload.
  destruct uid, (first_folder path); try apply extends_refl.
  repeat match goal with
         | |- context [if ?c then _ else _] =>
             destruct c; [apply extends_refl|]
         end.
  extends_by_one.
Qed.

Lemma insert_document_extends (d : database) (uid : option uuid)
  (now : timestamp) (application_id : uuid) (name url type_ : string) :
  extends d (snd (insert_document d uid now application_id name url type_)).
Proof.
  unfold insert_document.
  destruct (documents_insert_check _ _ _); [|apply extends_refl].
  extends_by_one.
Qed.

Lemma insert_payment_extends (d : database) (uid : option uuid)
  (application_id : uuid) (amount_ : money) (status_ method : string)
  (paid : timestamp) :
  extends d (snd (insert_payment d uid application_id amount_ status_ method
                                 paid)).
Proof.
  unfold insert_payment.
  destruct (fits_decimal_10_2 amount_); [|apply extends_refl]. cbn [negb].
  destruct (parse_payment_status status_); [|apply extends_refl].
  destruct (payments_insert_check _ _ _); [|apply extends_refl].
  extends_by_one.
Qed.

(** No request but an update changes or removes anything the database
    holds. *)
Lemma supabase_extends (o : op) (b : backend) :
  is_update o = false -> extends (be_db b) (be_db (snd (supabase o b))).
Proof.
  destruct o; simpl; intros H; try discriminate; try apply extends_refl.
  - pose proof (insert_application_extends (be_db b) (be_session b) (be_now b)
                  (be_uuids b (be_drawn b)) citizen_ service_ status_) as E.
    now destruct (insert_application _ _ _ _ _ _ _).
  - pose proof (storage_upload_extends (be_db b) (be_session b) path f) as E.
    now destruct (storage_upload _ _ _ _).
  - pose proof (insert_document_extends (be_db b) (be_session b) (be_now b)
                  application_id name url type_) as E.
    now destruct (insert_document _ _ _ _ _ _ _).
  - pose proof (insert_payment_extends (be_db b) (be_session b)
                  application_id amount_ status_ method paid) as E.
    now destruct (insert_payment _ _ _ _ _ _ _).
Qed.

Lemma supabase_session (o : op) (b : backend) :
  be_session (snd (supabase o b)) = be_session b.
Proof.
  destruct o; simpl; try reflexivity.
  - now destruct (insert_application _ _ _ _ _ _ _).
  - now destruct (storage_upload _ _ _ _).
  - now destruct (insert_document _ _ _ _ _ _ _).
  - now destruct (insert_payment _ _ _ _ _ _ _).
  - now destruct (update_application _ _ _ _ _).
Qed.

Lemma run_step {S A : Type} (exec : forall o : op, S -> resp o * S) (o : op)
  (k : resp o -> prog A) (s : S) :
  run exec (Call o k) s
  = (fst (fst (run exec (k (fst (exec o s))) (snd (exec o s)))),
     snd (fst (run exec (k (fst (exec o s))) (snd (exec o s)))),
     existT o (fst (exec o s))
     :: snd (run exec (k (fst (exec o s))) (snd (exec o s)))).
Proof.
  simpl. destruct (exec o s) as [r s1]. simpl.
  now destruct (run exec (k r) s1) as [[a s2] tr].
Qed.

Lemma issues_only_weaken {A} (p1 p2 : op -> bool) (p : prog A) :
  (forall o, p1 o = true -> p2 o = true) ->
  issues_only p1 p -> issues_only p2 p.
Proof.
  intros Himp. induction p as [a|o k IH]; simpl; [trivial|].
  intros [Ho Hk]. split; [now apply Himp|]. intros r. apply IH, Hk.
Qed.

Lemma run_extends {A} (p : prog A) (b : backend) :
  issues_only (fun o => negb (is_update o)) p ->
  extends (be_db b) (db_after (run supabase p b))
  /\ be_session (snd (fst (run supabase p b))) = be_session b.
Proof.
  revert b. induction p as [a|o k IH]; intros b; simpl issues_only.
  - intros _. split; [apply extends_refl|reflexivity].
  - intros [Ho Hk]. apply negb_true_iff in Ho.
    rewrite run_step. unfold db_after. cbn [fst snd].
    destruct (IH (fst (supabase o b)) (snd (supabase o b)) (Hk _)) as [E1 E2].
    split.
    + apply extends_trans with (d2 := be_db (snd (supabase o b)));
        [now apply supabase_extends|exact E1].
    + rewrite E2. apply supabase_session.
Qed.

Lemma upload_documents_issues (getPublicUrl : string -> string)
  (user_id application_id : uuid) (entries : js_object file)
  (next : prog (list ui_action)) :
  issues_only submission_request next ->
  issues_only submission_request
    (upload_documents getPublicUrl user_id application_id entries next).
Proof.
  intros Hnext. induction entries as [|[docType f] rest IH]; [exact Hnext|].
  simpl. split; [reflexivity|]. intros [e|[]]; simpl; [trivial|].
  split; [reflexivity|]. intros [e|[]]; simpl; [trivial|exact IH].
Qed.

Lemma handleSubmit_issues (getPublicUrl : string -> string) (now : timestamp)
  (svc : option service) (files : js_object file) :
  issues_only submission_request (handleSubmit getPublicUrl now svc files).
Proof.
  unfold handleSubmit. destruct svc as [svc|]; [|exact I].
  destruct (0 <? length (missingDocs svc files))%nat; [exact I|].
  simpl. split; [reflexivity|]. intros [user_id|]; simpl; [|trivial].
  split; [reflexivity|]. intros [e|app]; simpl; [trivial|].
  apply upload_documents_issues. simpl. split; [reflexivity|].
  intros [e|[]]; exact I.
Qed.

(** X7. A submission never changes or removes what the backend already
    holds, whether it succeeds, fails half-way or is blocked: users,
    roles and services stay as they are, and the applications, documents,
    payments and stored objects of before are still there, unchanged and
    in place, with at most new ones after them. *)
Theorem submission_only_adds (getPublicUrl : string -> string)
  (now : timestamp) (svc : option service) (files : js_object file)
  (b : backend) :
  extends (be_db b)
          (db_after (run supabase (handleSubmit getPublicUrl now svc files)
                         b)).
Proof.
  apply run_extends.
  apply issues_only_weaken with (p1 := submission_request);
    [|apply handleSubmit_issues].
  intros o H. unfold submission_request in H.
  now apply andb_true_iff in H as [H _].
Qed.

Lemma insert_application_created (d : database) (uid : option uuid)
  (now : timestamp) (new_id citizen_ service_ : uuid) (status_ : string)
  (app : application) :
  fst (insert_application d uid now new_id citizen_ service_ status_) = Ok app
  -> In app (applications
               (snd (insert_application d uid now new_id citizen_ service_
                                        status_)))
     /\ parse_status status_ = Some (status app)
     /\ uid = Some (citizen_id app).
Proof.
  unfold insert_application.
  destruct (parse_status status_) as [st|]; [|discriminate].
  destruct (applications_insert_check uid _) eqn:Hcheck; simpl;
    [|discriminate].
  repeat match goal with
         | |- context [if ?c then _ else _] => destruct c; [discriminate|]
         end.
  simpl. intros [= <-]. repeat split.
  - apply in_or_app. right. now left.
  - now apply uid_is_true in Hcheck.
Qed.

Lemma supabase_insert_application (b : backend) (citizen_ service_ : uuid)
  (status_ : string) :
  fst (supabase (insert_application_op citizen_ service_ status_) b)
  = fst (insert_application (be_db b) (be_session b) (be_now b)
                            (be_uuids b (be_drawn b)) citizen_ service_
                            status_)
  /\ be_db (snd (supabase (insert_application_op citizen_ service_ status_)
                          b))
     = snd (insert_application (be_db b) (be_session b) (be_now b)
                               (be_uuids b (be_drawn b)) citizen_ service_
                               status_).
Proof.
  simpl. now destruct (insert_application _ _ _ _ _ _ _).
Qed.

Lemma run_created (p : prog (list ui_action)) (b : backend)
  (app : application) :
  issues_only submission_request p ->
  In app (created_applications (snd (run supabase p b))) ->
  In app (applications (db_after (run supabase p b)))
  /\ status app = pending
  /\ be_session b = Some (citizen_id app).
Proof.
  revert b. induction p as [a|o k IH]; intros b; simpl issues_only.
  - intros _ [].
  - intros [Ho Hk]. rewrite run_step. unfold db_after. cbn [fst snd].
    assert (Hrest :
              In app (created_applications
                        (snd (run supabase (k (fst (supabase o b)))
                                  (snd (supabase o b))))) ->
              In app (applications
                        (be_db (snd (fst (run supabase
                                              (k (fst (supabase o b)))
                                              (snd (supabase o b)))))))
              /\ status app = pending
              /\ be_session b = Some (citizen_id app)).
    { intros Hin. destruct (IH _ _ (Hk _) Hin) as (H1 & H2 & H3).
      rewrite supabase_session in H3. auto. }
    destruct o; try exact Hrest.
    cbn [created_applications].
    pose proof (supabase_insert_application b citizen_ service_ status_)
      as [Hfst Hsnd].
    destruct (fst (supabase (insert_application_op citizen_ service_ status_)
                            b)) as [e|row] eqn:E; [exact Hrest|].
    intros [<-|Hin]; [|now apply Hrest].
    unfold submission_request in Ho. simpl in Ho.
    apply String.eqb_eq in Ho. subst status_.
    destruct (insert_application_created (be_db b) (be_session b) (be_now b)
                (be_uuids b (be_drawn b)) citizen_ service_ "pending" row
                (eq_sym Hfst)) as (Hin & Hst & Hu).
    rewrite <- Hsnd in Hin.
    repeat split.
    + assert (Hk' : issues_only (fun o => negb (is_update o)) (k (Ok row))).
      { apply issues_only_weaken with (p1 := submission_request);
          [|apply Hk].
        intros o H. unfold submission_request in H.
        now apply andb_true_iff in H as [H _]. }
      destruct (run_extends _ (snd (supabase (insert_application_op citizen_
                                                service_ "pending") b)) Hk')
        as [(_ & _ & _ & _ & [more Happ] & _) _].
      unfold db_after in Happ. rewrite Happ. apply in_or_app. now left.
    + simpl in Hst. now injection Hst as <-.
    + exact Hu.
Qed.

(** X8. An application the backend reported as created during a
    submission is in the table afterwards, pending and the caller's own,
    also when a later upload, document record or payment failed: nothing
    takes it back. *)
Theorem created_application_stays (getPublicUrl : string -> string)
  (now : timestamp) (svc : option service) (files : js_object file)
  (b : backend) (app : application) :
  let x := run supabase (handleSubmit getPublicUrl now svc files) b in
  In app (created_applications (snd x)) ->
  In app (applications (db_after x))
  /\ status app = pending
  /\ be_session b = Some (citizen_id app).
Proof.
  intros x. apply run_created. apply handleSubmit_issues.
Qed.

Lemma created_application_stays_witness :
  let x := run supabase
               (handleSubmit public_url 9%N (Some residence_certificate)
                             both_files)
               (signed_in "asha" clashing_db) in
  In (submitted_application (signed_in "asha" clashing_db) "asha"
                            residence_certificate)
     (created_applications (snd x))
  /\ fst (fst x) = submit_failed "The resource already exists"
  /\ In (submitted_application (signed_in "asha" clashing_db) "asha"
                               residence_certificate)
        (applications (db_after x))
  /\ documents (db_after x) = []
  /\ payments (db_after x) = [].
Proof.
  intros x.
  assert (H : In (submitted_application (signed_in "asha" clashing_db) "asha"
                                        residence_certificate)
                 (created_applications (snd x))) by (left; reflexivity).
  split; [exact H|]. split; [reflexivity|].
  split; [|split; reflexivity].
  exact (proj1 (created_application_stays public_url 9%N
                  (Some residence_certificate) both_files
                  (signed_in "asha" clashing_db) _ H)).
Defined.

(** *** A submission that goes through *)

Lemma fst_run_call {S A : Type} (exec : forall o : op, S -> resp o * S)
  (o : op) (k : resp o -> prog A) (s : S) :
  fst (run exec (Call o k) s)
  = fst (run exec (k (fst (exec o s))) (snd (exec o s))).
Proof. rewrite run_step. now destruct (run exec _ _) as [[a s2] tr]. Qed.

Lemma storage_upload_own (d : database) (user_id application_id docType : uuid)
  (f : file) :
  has_char "/" user_id = false ->
  existsb (fun o => fst o =? fileName user_id application_id docType f)
          (storage_objects d) = false ->
  storage_upload d (Some user_id) (fileName user_id application_id docType f) f
  = (Ok tt,
     set_storage_objects
       (storage_objects d
        ++ [(fileName user_id application_id docType f, f)]) d).
Proof.
  intros Hu Hnew. unfold storage_upload.
  rewrite (fileName_first_folder _ _ _ _ Hu), String.eqb_refl. simpl.
  now rewrite Hnew.
Qed.

Lemma insert_application_own (d : database) (now : timestamp)
  (new_id user_id service_ : uuid) :
  existsb (fun u => au_id u =? user_id) (auth_users d) = true ->
  existsb (fun s => service_id s =? service_) (services d) = true ->
  existsb (fun a => app_id a =? new_id) (applications d) = false ->
  insert_application d (Some user_id) now new_id user_id service_ "pending"
  = (Ok {| app_id := new_id; citizen_id := user_id;
           app_service_id := service_; officer_id := None; status := pending;
           remarks := None; applied_on := now; completed_on := None;
           updated_at := now |},
     set_applications
       (applications d
        ++ [{| app_id := new_id; citizen_id := user_id;
               app_service_id := service_; officer_id := None;
               status := pending; remarks := None; applied_on := now;
               completed_on := None; updated_at := now |}]) d).
Proof.
  intros Hu Hs Hnew. unfold insert_application.
  change (parse_status "pending") with (Some pending). cbv iota.
  unfold applications_insert_check. cbn [citizen_id uid_is].
  rewrite String.eqb_refl. cbn [negb]. rewrite Hu, Hs, Hnew. reflexivity.
Qed.

Lemma upload_documents_supabase (getPublicUrl : string -> string)
  (user_id application_id : uuid) (entries : js_object file) :
  forall (b1 : backend) (next : prog (list ui_action)),
    be_session b1 = Some user_id ->
    has_char "/" user_id = false ->
    (exists row, In row (applications (be_db b1))
                 /\ app_id row = application_id
                 /\ citizen_id row = user_id) ->
    List.NoDup (own_keys entries) ->
    (forall e, In e entries ->
       existsb (fun o => fst o =? fst (submitted_object user_id application_id
                                                        e))
               (storage_objects (be_db b1)) = false) ->
    exists b2,
      fst (run supabase
               (upload_documents getPublicUrl user_id application_id entries
                                 next) b1)
      = fst (run supabase next b2)
      /\ be_session b2 = be_session b1
      /\ be_now b2 = be_now b1
      /\ applications (be_db b2) = applications (be_db b1)
      /\ payments (be_db b2) = payments (be_db b1)
      /\ documents (be_db b2)
         = documents (be_db b1)
           ++ map (submitted_document getPublicUrl (be_now b1) user_id
                                      application_id) entries
      /\ storage_objects (be_db b2)
         = storage_objects (be_db b1)
           ++ map (submitted_object user_id application_id) entries.
Proof.
  induction entries as [|[docType f] rest IH];
    intros b1 next Hs Hu Hrow Hnd Hfree.
  - exists b1. simpl. rewrite !List.app_nil_r. repeat split.
  - cbn [upload_documents]. rewrite fst_run_call.
    assert (Hup : supabase (upload (fileName user_id application_id docType f)
                                   f) b1
                  = (Ok tt,
                     with_db b1
                       (set_storage_objects
                          (storage_objects (be_db b1)
                           ++ [(fileName user_id application_id docType f, f)])
                          (be_db b1)))).
    { cbn [supabase]. rewrite Hs, storage_upload_own; [reflexivity|exact Hu|].
      apply (Hfree (docType, f)). now left. }
    rewrite Hup. cbn [fst snd]. rewrite fst_run_call.
    set (b' := with_db b1 _) in *.
    assert (Hown : owns_application (be_db b') (Some user_id) application_id
                   = true).
    { apply owns_application_iff. exact Hrow. }
    assert (Hdoc : supabase
                     (insert_document_op application_id (file_name f)
                        (getPublicUrl (fileName user_id application_id docType
                                                f)) docType) b'
                   = (Ok tt,
                      with_db b'
                        (set_documents
                           (documents (be_db b')
                            ++ [submitted_document getPublicUrl (be_now b1)
                                  user_id application_id (docType, f)])
                           (be_db b')))).
    { cbn [supabase]. unfold insert_document, documents_insert_check.
      cbn [doc_application_id]. change (be_session b') with (be_session b1).
      rewrite Hs, Hown. reflexivity. }
    rewrite Hdoc. cbn [fst snd].
    set (b'' := with_db b' _) in *.
    apply List.NoDup_cons_iff in Hnd as [Hk Hnd].
    destruct (IH b'' next) as (b2 & Hrun & Hs2 & Hn2 & Ha2 & Hp2 & Hd2 & Ho2).
    + exact Hs.
    + exact Hu.
    + exact Hrow.
    + exact Hnd.
    + intros e He. change (storage_objects (be_db b''))
        with (storage_objects (be_db b1)
              ++ [(fileName user_id application_id docType f, f)]).
      rewrite List.existsb_app. rewrite (Hfree e (or_intror He)).
      cbn [existsb fst orb]. rewrite orb_false_r.
      apply String.eqb_neq. intros Heq. unfold submitted_object in Heq.
      cbn [fst] in Heq. apply fileName_label in Heq. apply Hk.
      unfold own_keys. rewrite Heq. apply in_map_iff. now exists e.
    + exists b2. rewrite Hrun, Hs2, Hn2, Ha2, Hp2, Hd2, Ho2.
      repeat split; cbn [map]; subst b'' b';
        cbn [with_db be_db set_documents set_storage_objects documents
             storage_objects be_now];
        now rewrite <- List.app_assoc.
Qed.

(** X9. On the hosted backend a submission goes through whenever the
    caller is signed in as a known user whose identifier holds no slash,
    the service exists, the drawn application identifier is new, every
    required label has a file, and no object sits yet at a path the
    submission uses. It then adds exactly one pending application of the
    caller, one stored object and one document row per file, in the order
    of the files, and one completed payment of the service fee. *)
Theorem submission_goes_through (getPublicUrl : string -> string)
  (now : timestamp) (svc : service) (files : js_object file) (b : backend)
  (user_id : uuid) :
  be_session b = Some user_id ->
  has_char "/" user_id = false ->
  existsb (fun u => au_id u =? user_id) (auth_users (be_db b)) = true ->
  existsb (fun s => service_id s =? service_id svc) (services (be_db b))
  = true ->
  existsb (fun a => app_id a =? be_uuids b (be_drawn b))
          (applications (be_db b)) = false ->
  (forall doc, In doc (required_documents svc) ->
               own_property files doc <> None) ->
  List.NoDup (own_keys files) ->
  (forall e, In e files ->
     existsb (fun o => fst o =? fst (submitted_object user_id
                                       (be_uuids b (be_drawn b)) e))
             (storage_objects (be_db b)) = false) ->
  let x := run supabase (handleSubmit getPublicUrl now (Some svc) files) b in
  let application_id := be_uuids b (be_drawn b) in
  fst (fst x) = submitted
  /\ applications (db_after x)
     = applications (be_db b) ++ [submitted_application b user_id svc]
  /\ storage_objects (db_after x)
     = storage_objects (be_db b)
       ++ map (submitted_object user_id application_id) files
  /\ documents (db_after x)
     = documents (be_db b)
       ++ map (submitted_document getPublicUrl (be_now b) user_id
                                  application_id) files
  /\ payments (db_after x)
     = payments (be_db b) ++ [submitted_payment application_id svc now].
Proof.
  intros Hs Hu Huser Hsvc Hnew Hall Hnd Hfree x application_id.
  subst x. unfold db_after, handleSubmit.
  rewrite (missingDocs_none svc files Hall).
  change (0 <? length (@nil string))%nat with false. cbv iota.
  rewrite fst_run_call. cbn [supabase fst snd]. rewrite Hs.
  rewrite fst_run_call.
  assert (Hins : supabase (insert_application_op user_id (service_id svc)
                                                 "pending") b
                 = (Ok (submitted_application b user_id svc),
                    draw_uuid
                      (with_db b
                         (set_applications
                            (applications (be_db b)
                             ++ [submitted_application b user_id svc])
                            (be_db b))))).
  { cbn [supabase]. rewrite Hs, insert_application_own by assumption.
    reflexivity. }
  rewrite Hins. cbn [fst snd].
  set (b1 := draw_uuid _) in *.
  change (app_id (submitted_application b user_id svc)) with application_id.
  match goal with
  | |- context [upload_documents _ _ _ _ ?next] =>
      destruct (upload_documents_supabase getPublicUrl user_id application_id
                  files b1 next)
        as (b2 & Hrun & Hs2 & Hn2 & Ha2 & Hp2 & Hd2 & Ho2)
  end.
  - exact Hs.
  - exact Hu.
  - exists (submitted_application b user_id svc). repeat split.
    cbn. apply in_or_app. right. now left.
  - exact Hnd.
  - exact Hfree.
  - rewrite Hrun. rewrite fst_run_call.
    assert (Hown : owns_application (be_db b2) (Some user_id) application_id
                   = true).
    { apply owns_application_iff.
      exists (submitted_application b user_id svc). rewrite Ha2.
      repeat split. cbn. apply in_or_app. right. now left. }
    assert (Hpay : supabase (insert_payment_op application_id (fee svc)
                                               "completed" "mock" now) b2
                   = (Ok tt,
                      with_db b2
                        (set_payments
                           (payments (be_db b2)
                            ++ [submitted_payment application_id svc now])
                           (be_db b2)))).
    { cbn [supabase]. unfold insert_payment.
      rewrite (hundredths_fit (fee svc)). cbn [negb].
      change (parse_payment_status "completed") with (Some payment_completed).
      cbv iota. unfold payments_insert_check. cbn [pay_application_id].
      rewrite Hs2. change (be_session b1) with (be_session b).
      rewrite Hs, Hown. reflexivity. }
    rewrite Hpay. cbn [fst snd run].
    cbn [with_db be_db set_payments applications storage_objects documents
         payments].
    rewrite Ha2, Ho2, Hd2, Hp2. repeat split.
Qed.

Lemma submission_goes_through_witness :
  let b := signed_in "asha" office_db in
  let x := run supabase
               (handleSubmit public_url 9%N (Some residence_certificate)
                             both_files) b in
  (be_session b = Some "asha"
   /\ has_char "/" "asha" = false
   /\ List.NoDup (own_keys both_files))
  /\ fst (fst x) = submitted
  /\ applications (db_after x)
     = [submitted_application b "asha" residence_certificate]
  /\ payments (db_after x)
     = [submitted_payment "app-1" residence_certificate 9%N].
Proof.
  intros b x.
  assert (H6 : forall doc, In doc (required_documents residence_certificate) ->
                           own_property both_files doc <> None).
  { intros doc [<-|[<-|[]]]; discriminate. }
  assert (H7 : List.NoDup (own_keys both_files)).
  { repeat constructor; simpl; intuition discriminate. }
  assert (H8 : forall e, In e both_files ->
             existsb (fun o => fst o =? fst (submitted_object "asha"
                                               (be_uuids b (be_drawn b)) e))
                     (storage_objects (be_db b)) = false).
  { intros e _. reflexivity. }
  split; [repeat split; exact H7|].
  destruct (submission_goes_through public_url 9%N residence_certificate
              both_files b "asha" eq_refl eq_refl eq_refl eq_refl eq_refl
              H6 H7 H8) as (Hacts & Happs & _ & _ & Hpay).
  split; [exact Hacts|]. split; [exact Happs|exact Hpay].
Defined.

(** ** Guards and landing pages *)

Lemma filter_same_short {A} (p : A -> bool) (x : A) (l : list A) :
  List.NoDup l -> (forall y, In y l -> p y = true -> y = x) ->
  List.filter p l = [] \/ List.filter p l = [x].
Proof.
  induction l as [|y l IH]; intros Hnd Hall; [now left|].
  apply List.NoDup_cons_iff in Hnd as [Hy Hnd]. simpl.
  destruct (p y) eqn:E.
  - right. rewrite (Hall y (or_introl eq_refl) E) in *.
    destruct (IH Hnd) as [->| H]; [intros z Hz; apply Hall; now right|
                                   reflexivity|].
    exfalso. apply Hy.
    assert (Hin : In x (List.filter p l)) by (rewrite H; now left).
    now apply filter_In in Hin as [Hin _].
  - apply IH; [exact Hnd|]. intros z Hz. apply Hall. now right.
Qed.

(** With each (user, role) pair stored once, the query of the guard finds
    one row when the user holds the role and none otherwise. *)
Lemma select_role_rows (d : database) (user_id : uuid) (wanted : app_role) :
  List.NoDup (user_roles d) ->
  List.filter (role_eqb wanted) (select_user_roles d (Some user_id) user_id)
  = if has_role d (Some user_id) wanted then [wanted] else [].
Proof.
  intros Hnd. rewrite select_user_roles_own.
  assert (Hmap : forall l : list user_role,
             List.filter (role_eqb wanted) (map ur_role l)
             = map ur_role
                   (List.filter (fun r => role_eqb (ur_role r) wanted) l)).
  { induction l as [|r l IH]; [reflexivity|]. simpl.
    replace (role_eqb wanted (ur_role r)) with (role_eqb (ur_role r) wanted)
      by (destruct wanted, (ur_role r); reflexivity).
    destruct (role_eqb (ur_role r) wanted); simpl; now rewrite IH. }
  rewrite Hmap.
  assert (Hboth : forall l : list user_role,
             List.filter (fun r => role_eqb (ur_role r) wanted)
                         (List.filter (fun r => ur_user_id r =? user_id) l)
             = List.filter (fun r => (ur_user_id r =? user_id)
                                     && role_eqb (ur_role r) wanted) l).
  { induction l as [|r l IH]; [reflexivity|]. simpl.
    destruct (ur_user_id r =? user_id); simpl; [|exact IH].
    destruct (role_eqb (ur_role r) wanted); simpl; now rewrite IH. }
  rewrite Hboth. cbn [has_role].
  destruct (filter_same_short
              (fun r => (ur_user_id r =? user_id)
                        && role_eqb (ur_role r) wanted)
              (grant user_id wanted) (user_roles d) Hnd) as [H|H].
  - intros [u r] _ Hy. simpl in Hy. apply andb_true_iff in Hy as [H1 H2].
    apply String.eqb_eq in H1. apply role_eqb_eq in H2. now subst.
  - rewrite H.
    destruct (existsb _ (user_roles d)) eqn:E; [|reflexivity].
    apply existsb_exists in E as (r & Hin & Hr).
    assert (Hf : In r (List.filter
                         (fun r => (ur_user_id r =? user_id)
                                   && role_eqb (ur_role r) wanted)
                         (user_roles d))) by now apply filter_In.
    rewrite H in Hf. destruct Hf.
  - rewrite H.
    destruct (existsb _ (user_roles d)) eqn:E; [reflexivity|].
    assert (Hf : In (grant user_id wanted)
                    (List.filter
                       (fun r => (ur_user_id r =? user_id)
                                 && role_eqb (ur_role r) wanted)
                       (user_roles d))) by (rewrite H; now left).
    apply filter_In in Hf as [Hin Hr].
    assert (E' : existsb (fun r => (ur_user_id r =? user_id)
                                   && role_eqb (ur_role r) wanted)
                         (user_roles d) = true)
      by (apply existsb_exists; eauto).
    congruence.
Qed.

Lemma parse_role_name (r : app_role) : parse_role (role_name r) = Some r.
Proof. now destruct r. Qed.

Lemma with_db_same (b : backend) : with_db b (be_db b) = b.
Proof. now destruct b. Qed.

(** The guard for a signed-in user, on the hosted backend. *)
Lemma authGuard_run (b : backend) (user_id : uuid) (wanted : app_role) :
  be_session b = Some user_id ->
  List.NoDup (user_roles (be_db b)) ->
  fst (run supabase (authGuard (Some (role_name wanted))) b)
  = (if has_role (be_db b) (Some user_id) wanted
     then [setUser (Some user_id); setHasRole true; setLoading false]
     else [setUser (Some user_id); navigate "/"; setLoading false],
     b).
Proof.
  intros Hs Hnd. unfold authGuard. rewrite fst_run_call.
  cbn [supabase fst snd]. rewrite Hs. rewrite fst_run_call.
  cbn [supabase fst snd]. rewrite parse_role_name, Hs.
  rewrite (select_role_rows _ _ _ Hnd).
  now destruct (has_role (be_db b) (Some user_id) wanted).
Qed.

(** X10. With each (user, role) pair stored once, the guard shows the
    guarded page to a signed-in caller exactly when [has_role] holds for
    the required role at the backend; otherwise it sends the caller to [/],
    and without a session to [/auth]. It never changes the backend. *)
Theorem authGuard_admits (b : backend) (wanted : app_role) :
  List.NoDup (user_roles (be_db b)) ->
  let x := run supabase (authGuard (Some (role_name wanted))) b in
  (In (setHasRole true) (fst (fst x))
   <-> has_role (be_db b) (be_session b) wanted = true)
  /\ (navigated (fst (fst x))
      = if has_role (be_db b) (be_session b) wanted then None
        else match be_session b with
             | Some _ => Some "/"
             | None => Some "/auth"
             end)
  /\ snd (fst x) = b.
Proof.
  intros Hnd x. subst x.
  destruct (be_session b) as [user_id|] eqn:Hs.
  - rewrite (authGuard_run b user_id wanted Hs Hnd).
    destruct (has_role (be_db b) (Some user_id) wanted); cbn.
    + repeat split; auto.
    + repeat split; try discriminate.
      intros [H|[H|[H|[]]]]; discriminate.
  - unfold authGuard. rewrite fst_run_call. cbn [supabase fst snd].
    rewrite Hs. cbn. repeat split; try discriminate.
    intros [H|[H|[H|[]]]]; discriminate.
Qed.

Lemma authGuard_admits_witness :
  let b := signed_in "asha" office_db in
  List.NoDup (user_roles (be_db b))
  /\ navigated (fst (fst (run supabase (authGuard (Some "officer")) b)))
     = Some "/"
  /\ navigated (fst (fst (run supabase (authGuard (Some "citizen")) b)))
     = None.
Proof.
  intros b.
  assert (H : List.NoDup (user_roles (be_db b))).
  { repeat constructor; simpl; intuition discriminate. }
  split; [exact H|]. split.
  - exact (proj1 (proj2 (authGuard_admits b officer H))).
  - exact (proj1 (proj2 (authGuard_admits b citizen H))).
Defined.

Lemma land_step_fst {S : Type} (exec : forall o : op, S -> resp o * S)
  (fuel : nat) (path : string) (s : S) :
  land exec (Datatypes.S fuel) path s
  = match navigated (fst (fst (run exec (on_mount (route path)) s))) with
    | Some next =>
        land exec fuel next (snd (fst (run exec (on_mount (route path)) s)))
    | None => Some path
    end.
Proof.
  rewrite land_step. now destruct (run exec _ s) as [[acts s'] tr].
Qed.

Lemma checkAuth_fst (b : backend) (user_id : uuid) :
  be_session b = Some user_id ->
  fst (run supabase checkAuth b)
  = ([navigate
        (route_by_roles
           (map role_name
              (map ur_role
                 (List.filter (fun r => ur_user_id r =? user_id)
                              (user_roles (be_db b))))));
      setLoading false], b).
Proof. intros Hs. now rewrite (checkAuth_run b user_id Hs). Qed.

Lemma checkUserRoles_fst (b : backend) (user_id : uuid) :
  be_session b = Some user_id ->
  fst (run supabase checkUserRoles b)
  = (let rolesList :=
       map role_name
           (map ur_role
              (List.filter (fun r => ur_user_id r =? user_id)
                           (user_roles (be_db b)))) in
     if (length rolesList =? 0)%nat
     then [toast_error "No role assigned. Please contact administrator.";
           setLoading false]
     else setRoles rolesList
          :: (if (length rolesList =? 1)%nat
              then redirectToRole (nth 0 rolesList "undefined")
              else [])
          ++ [setLoading false],
     b).
Proof.
  intros Hs. unfold checkUserRoles. rewrite fst_run_call.
  cbn [supabase fst snd]. rewrite Hs. rewrite fst_run_call.
  cbn [supabase fst snd]. rewrite Hs, select_user_roles_own. cbv zeta.
  now destruct (length _ =? 0)%nat.
Qed.

Lemma authGuard_fst (b : backend) (user_id : uuid) (wanted : app_role) :
  be_session b = Some user_id ->
  fst (run supabase (authGuard (Some (role_name wanted))) b)
  = (match maybeSingle
             (List.filter (role_eqb wanted)
                (map ur_role
                   (List.filter (fun r => ur_user_id r =? user_id)
                                (user_roles (be_db b))))) with
     | Ok (Some _) =>
         [setUser (Some user_id); setHasRole true; setLoading false]
     | _ => [setUser (Some user_id); navigate "/"; setLoading false]
     end, b).
Proof.
  intros Hs. unfold authGuard. rewrite fst_run_call.
  cbn [supabase fst snd]. rewrite Hs. rewrite fst_run_call.
  cbn [supabase fst snd]. rewrite parse_role_name, Hs, select_user_roles_own.
  now destruct (maybeSingle _) as [e|[row|]].
Qed.

Arguments land : simpl never.

(** One step of [land] from each page, for a signed-in user. *)
Ltac land_from_page Hs Hroles :=
  rewrite land_step_fst;
  first
    [ change (on_mount (route "/")) with checkAuth;
      rewrite (checkAuth_fst _ _ Hs)
    | change (on_mount (route "/select-role")) with checkUserRoles;
      rewrite (checkUserRoles_fst _ _ Hs)
    | change (on_mount (route "/citizen"))
        with (authGuard (Some (role_name citizen)));
      rewrite (authGuard_fst _ _ citizen Hs)
    | change (on_mount (route "/officer"))
        with (authGuard (Some (role_name officer)));
      rewrite (authGuard_fst _ _ officer Hs)
    | change (on_mount (route "/admin"))
        with (authGuard (Some (role_name admin)));
      rewrite (authGuard_fst _ _ admin Hs) ];
  rewrite Hroles; cbn.

(** X11. A signed-in user who holds exactly one role ends on that role's
    dashboard from the entry page, from the role selector and from each of
    the three dashboards: a dashboard of another role sends the user to
    [/], which sends them on to their own. *)
Theorem single_role_lands_on_dashboard (b : backend) (user_id : uuid)
  (r : app_role) (fuel : nat) (path : string) :
  be_session b = Some user_id ->
  map ur_role (List.filter (fun x => ur_user_id x =? user_id)
                           (user_roles (be_db b))) = [r] ->
  In path ["/"; "/select-role"; "/citizen"; "/officer"; "/admin"] ->
  land supabase (Datatypes.S (Datatypes.S (Datatypes.S fuel))) path b
  = Some (dashboard_of (role_name r)).
Proof.
  intros Hs Hroles [<-|[<-|[<-|[<-|[<-|[]]]]]]; destruct r;
    repeat (land_from_page Hs Hroles); reflexivity.
Qed.

Lemma single_role_lands_on_dashboard_witness :
  let b := signed_in "omkar" office_db in
  be_session b = Some "omkar"
  /\ land supabase 3 "/citizen" b = Some "/officer"
  /\ land supabase 3 "/select-role" b = Some "/officer".
Proof.
  intros b. split; [reflexivity|]. split.
  - apply (single_role_lands_on_dashboard b "omkar" officer 0 "/citizen"
             eq_refl eq_refl). simpl. tauto.
  - apply (single_role_lands_on_dashboard b "omkar" officer 0 "/select-role"
             eq_refl eq_refl). simpl. tauto.
Defined.

(** ** After signup *)

Lemma signup_user_roles (d d' : database) (u : auth_user) :
  signup d u = (Ok tt, d') ->
  user_roles d' = user_roles d ++ [grant (au_id u) citizen].
Proof.
  unfold signup. destruct (existsb _ (auth_users d)); [discriminate|].
  unfold handle_new_user.
  destruct (au_email u); [|discriminate].
  destruct (existsb _ (profiles _)); [discriminate|].
  destruct (existsb _ (user_roles _)); [discriminate|].
  now intros [= <-].
Qed.

(** X12. A user who has just signed up, with no role row under the
    identifier before, holds the citizen role and no other: the entry page
    sends them to [/citizen], and they stay there. *)
Theorem new_user_lands_on_citizen (d d' : database) (u : auth_user)
  (b : backend) (fuel : nat) :
  signup d u = (Ok tt, d') ->
  (forall row, In row (user_roles d) -> ur_user_id row <> au_id u) ->
  be_db b = d' ->
  be_session b = Some (au_id u) ->
  has_role d' (Some (au_id u)) citizen = true
  /\ officer_or_admin d' (Some (au_id u)) = false
  /\ fst (fst (run supabase checkAuth b))
     = [navigate "/citizen"; setLoading false]
  /\ land supabase (Datatypes.S (Datatypes.S fuel)) "/" b = Some "/citizen".
Proof.
  intros Hsign Hfresh Hdb Hs.
  pose proof (signup_user_roles d d' u Hsign) as Hroles.
  assert (Hnone : List.filter (fun r => ur_user_id r =? au_id u)
                              (user_roles d) = []).
  { apply filter_none. intros row Hin. apply String.eqb_neq.
    now apply Hfresh. }
  assert (Hone : map ur_role
                     (List.filter (fun r => ur_user_id r =? au_id u)
                                  (user_roles (be_db b))) = [citizen]).
  { rewrite Hdb, Hroles, List.filter_app, Hnone. simpl.
    now rewrite String.eqb_refl. }
  assert (Hhas : forall w,
             has_role d' (Some (au_id u)) w = role_eqb citizen w).
  { intros w. cbn [has_role]. rewrite Hroles, List.existsb_app.
    replace (existsb _ (user_roles d)) with false.
    - simpl. now rewrite String.eqb_refl, orb_false_r.
    - symmetry. apply not_true_is_false. intros E.
      apply existsb_exists in E as (row & Hin & Hrow).
      apply andb_true_iff in Hrow as [Hrow _].
      apply String.eqb_eq in Hrow. now apply (Hfresh row Hin). }
  split; [now rewrite Hhas|]. split.
  { unfold officer_or_admin. now rewrite !Hhas. }
  split.
  - rewrite (checkAuth_fst b (au_id u) Hs), Hone. reflexivity.
  - now repeat (land_from_page Hs Hone).
Qed.

Lemma new_user_lands_on_citizen_witness :
  let u := user_of "asha" in
  let d' := snd (signup empty_database u) in
  let b := signed_in "asha" d' in
  signup empty_database u = (Ok tt, d')
  /\ be_session b = Some (au_id u)
  /\ land supabase 2 "/" b = Some "/citizen".
Proof.
  intros u d' b. split; [reflexivity|]. split; [reflexivity|].
  assert (Hfresh : forall row, In row (user_roles empty_database) ->
                               ur_user_id row <> au_id u) by (intros row []).
  exact (proj2 (proj2 (proj2 (new_user_lands_on_citizen empty_database d' u b 0
                                eq_refl Hfresh eq_refl eq_refl)))).
Defined.

(** ** Admin statistics on the hosted backend *)

Lemma own_role_rows (l : list user_role) (user_id : uuid)
  (wanted : app_role) :
  map ur_role
      (List.filter (fun r => (ur_user_id r =? user_id)
                             && role_eqb (ur_role r) wanted) l)
  = List.filter (role_eqb wanted)
                (map ur_role
                   (List.filter (fun r => ur_user_id r =? user_id) l)).
Proof.
  induction l as [|r l IH]; [reflexivity|]. cbn [List.filter].
  destruct (ur_user_id r =? user_id); cbn [andb map List.filter];
    [|exact IH].
  replace (role_eqb wanted (ur_role r)) with (role_eqb (ur_role r) wanted)
    by (destruct wanted, (ur_role r); reflexivity).
  destruct (role_eqb (ur_role r) wanted); cbn [map]; now rewrite IH.
Qed.

(** X13. On the hosted backend the admin dashboard's count of registered
    citizens is the count of the caller's own citizen role rows, since a
    caller can select no other user's role rows: with each (user, role)
    pair stored once it is 1 when the caller is a citizen and 0 otherwise,
    however many citizens there are. The total counts the applications the
    caller can see. *)
Theorem fetchStats_counts_own_roles (b : backend) :
  List.NoDup (user_roles (be_db b)) ->
  exists st,
    fst (run supabase fetchStats b) = ([setStats st; setLoading false], b)
    /\ totalCitizens st
       = (if has_role (be_db b) (be_session b) citizen then 1 else 0)%nat
    /\ totalApplications st
       = length (select_applications (be_db b) (be_session b)).
Proof.
  intros Hnd. eexists. split; [|split].
  - unfold fetchStats. rewrite !fst_run_call. cbn [supabase fst snd run].
    reflexivity.
  - cbn [totalCitizens stats_of].
    destruct (be_session b) as [user_id|] eqn:Hs.
    + pose proof (select_role_rows (be_db b) user_id citizen Hnd) as Hrows.
      rewrite select_user_roles_own in Hrows.
      rewrite <- (own_role_rows (user_roles (be_db b)) user_id citizen) in Hrows.
      rewrite (filter_ext
                 (fun r => user_roles_select_policy (Some user_id) r
                           && role_eqb (ur_role r) citizen)
                 (fun r => (ur_user_id r =? user_id)
                           && role_eqb (ur_role r) citizen)).
      2: { intros r. unfold user_roles_select_policy. simpl.
           now rewrite (String.eqb_sym user_id). }
      rewrite <- (List.length_map ur_role), Hrows.
      now destruct (has_role (be_db b) (Some user_id) citizen).
    + rewrite filter_none; [reflexivity|]. intros r _. reflexivity.
  - cbn [totalApplications stats_of]. now rewrite List.length_map.
Qed.

Lemma fetchStats_counts_own_roles_witness :
  let b := signed_in "meera" office_db in
  List.NoDup (user_roles (be_db b))
  /\ length (List.filter (fun r => role_eqb (ur_role r) citizen)
                         (user_roles (be_db b))) = 2%nat
  /\ exists st,
       fst (fst (run supabase fetchStats b)) = [setStats st; setLoading false]
       /\ totalCitizens st = 1%nat.
Proof.
  intros b.
  assert (H : List.NoDup (user_roles (be_db b))).
  { repeat constructor; simpl; intuition discriminate. }
  split; [exact H|]. split; [reflexivity|].
  destruct (fetchStats_counts_own_roles b H) as (st & Hrun & Hc & _).
  exists st. split; [now rewrite Hrun|exact Hc].
Defined.

(** ** Updates that reach no row *)

(** X14. When the caller is neither officer nor admin, or no application
    has the given identifier, a status update with a valid status changes
    nothing at the backend, and the handler still reports success: the
    update of no row is not an error. *)
Theorem update_of_no_row_reports_success (remarks_ : gmap string string)
  (now : timestamp) (appId newStatus : string) (b : backend)
  (st : application_status) :
  parse_status newStatus = Some st ->
  officer_or_admin (be_db b) (be_session b) = false
  \/ (forall row, In row (applications (be_db b)) -> app_id row <> appId) ->
  fst (run supabase (handleUpdateStatus remarks_ now appId newStatus) b)
  = ([setProcessingId (Some appId);
      toast_success ("Application " +:+ newStatus);
      fetchApplications; setRemarks appId ""; setProcessingId None],
     b).
Proof.
  intros Hst Hcase. rewrite handleUpdateStatus_run. cbv zeta. cbn [fst].
  unfold update_application. cbn [upd_status updateData]. rewrite Hst.
  cbn [fst snd is_ok]. f_equal.
  rewrite map_unchanged; [now rewrite set_applications_same, with_db_same|].
  intros row Hin. unfold applications_update_using.
  destruct Hcase as [Hrole|Hid].
  - now rewrite Hrole, andb_false_r.
  - destruct (String.eqb_spec (app_id row) appId) as [E|_]; [|reflexivity].
    now destruct (Hid row Hin).
Qed.

Lemma update_of_no_row_reports_success_witness :
  let b := signed_in "asha" (set_applications [pending_row] office_db) in
  parse_status "approved" = Some approved
  /\ officer_or_admin (be_db b) (be_session b) = false
  /\ In (toast_success "Application approved")
        (fst (fst (run supabase (handleUpdateStatus ∅ 9%N "app-2" "approved")
                       b)))
  /\ applications (db_after (run supabase
                                 (handleUpdateStatus ∅ 9%N "app-2" "approved")
                                 b))
     = [pending_row].
Proof.
  intros b. split; [reflexivity|]. split; [reflexivity|].
  pose proof (update_of_no_row_reports_success ∅ 9%N "app-2" "approved" b
                approved eq_refl (or_introl eq_refl)) as H.
  unfold db_after. rewrite H. split; [right; now left|reflexivity].
Defined.

(** ** Rows the portal produces *)

Lemma insert_application_row (d : database) (uid : option uuid)
  (now : timestamp) (new_id citizen_ service_ : uuid) (status_ : string) :
  let r := insert_application d uid now new_id citizen_ service_ status_ in
  match fst r with
  | Ok row =>
      applications (snd r) = applications d ++ [row]
      /\ officer_id row = None
      /\ parse_status status_ = Some (status row)
  | Err _ => snd r = d
  end.
Proof.
  unfold insert_application.
  destruct (parse_status status_) as [st|]; [|reflexivity].
  repeat match goal with
         | |- context [if ?c then _ else _] => destruct c; [reflexivity|]
         end.
  simpl. auto.
Qed.

Lemma portal_write_rows (d d' : database) :
  portal_write d d' ->
  List.Forall (fun row => officer_id row = None
                          /\ uncounted (status row) = false)
              (applications d) ->
  List.Forall (fun row => officer_id row = None
                          /\ uncounted (status row) = false)
              (applications d').
Proof.
  intros [uid now new_id citizen_ service_
         |uid path f
         |uid now application_id name url type_
         |uid application_id amount_ paid
         |uid now remarks_ clicked appId shown newStatus Hbutton
         |u] Hinv.
  - pose proof (insert_application_row d uid now new_id citizen_ service_
                  "pending") as H. cbv zeta in H.
    destruct (fst (insert_application _ _ _ _ _ _ _)) as [e|row].
    + now rewrite H.
    + destruct H as (-> & Ho & Hs). apply List.Forall_app. split; [assumption|].
      constructor; [|constructor]. injection Hs as Hs. rewrite <- Hs.
      now split.
  - unfold storage_upload.
    destruct uid, (first_folder path); try assumption.
    repeat match goal with
           | |- context [if ?c then _ else _] => destruct c; [assumption|]
           end.
    assumption.
  - unfold insert_document. destruct (documents_insert_check _ _ _); assumption.
  - unfold insert_payment.
    destruct (fits_decimal_10_2 amount_); [|assumption]. simpl.
    destruct (payments_insert_check _ _ _); assumption.
  - destruct (card_buttons_terminal shown newStatus Hbutton) as (st & Hst & Ht).
    pose proof (update_application_rows d uid now appId
                  (updateData remarks_ clicked appId newStatus)) as Hrows.
    induction Hrows as [|row row' rows rows' Hrow _ IH].
    + constructor.
    + apply List.Forall_cons_iff in Hinv as [Hrow_inv Hrest].
      constructor; [|now apply IH].
      destruct Hrow as [->|(st' & Hst' & ->)]; [assumption|].
      simpl in Hst'. rewrite Hst in Hst'. injection Hst' as <-.
      split; [apply Hrow_inv|]. cbn [status apply_update].
      now destruct st.
  - now rewrite signup_applications.
Qed.

(** X15. Through the portal's own writes, from a database whose
    application rows are of this kind (for one, a database without
    applications), every application row has no officer assigned, is
    pending, approved or rejected, and has [completed_on] set exactly when
    it is approved or rejected. So for every caller the three counters of
    the admin dashboard add up to the total it shows. *)
Theorem portal_rows_are_counted (d0 d : database) :
  portal_writes d0 d ->
  List.Forall portal_row (applications d0) ->
  List.Forall portal_row (applications d)
  /\ forall (b : backend) (st : Stats),
       be_db b = d ->
       In (setStats st) (fst (fst (run supabase fetchStats b))) ->
       (pendingApplications st + approvedApplications st
        + rejectedApplications st)%nat = totalApplications st.
Proof.
  intros Hreach Hstart.
  assert (Hrows : List.Forall portal_row (applications d)).
  { induction Hreach as [|d1 d2 _ IH Hstep]; [exact Hstart|].
    assert (H1 : List.Forall (fun row => officer_id row = None
                                         /\ uncounted (status row) = false)
                             (applications d2)).
    { apply (portal_write_rows d1 d2 Hstep).
      apply (List.Forall_impl _ (P := portal_row)); [|exact IH].
      intros row (Ho & Hu & _). now split. }
    assert (H2 : List.Forall completed_iff_terminal (applications d2)).
    { apply (portal_write_keeps_completed_iff_terminal d1 d2 Hstep).
      apply (List.Forall_impl _ (P := portal_row)); [|exact IH].
      now intros row (_ & _ & Hc). }
    rewrite List.Forall_forall in *. intros row Hin.
    destruct (H1 row Hin) as [Ho Hu]. repeat split; auto.
    all: now apply H2. }
  split; [exact Hrows|].
  intros b st Hdb Hin.
  destruct (fetchStats_spec supabase b st Hin) as (apps & c & Hfetch & ->).
  pose proof (stats_partition apps c) as Hpart. cbv zeta in Hpart.
  assert (Hnone : length (List.filter (fun a => uncounted (row_status a))
                                      apps) = 0%nat).
  { apply filter_nil_iff. intros a Ha. cbn [supabase fst] in Hfetch.
    injection Hfetch as <-.
    apply in_map_iff in Ha as (row & <- & Hrow). cbn [row_status].
    unfold select_applications in Hrow. apply filter_In in Hrow as [Hrow _].
    rewrite Hdb in Hrow. rewrite List.Forall_forall in Hrows.
    now apply Hrows. }
  lia.
Qed.

Lemma portal_rows_are_counted_witness :
  let d1 := snd (insert_application office_db (Some "asha") 1%N "app-1"
                                    "asha" "svc-residence" "pending") in
  let d2 := snd (update_application d1 (Some "omkar") 5%N "app-1"
                                    (updateData ∅ 5%N "app-1" "approved")) in
  portal_writes office_db d2
  /\ map (fun row => (status row, completed_on row)) (applications d2)
     = [(approved, Some 5%N)]
  /\ List.Forall portal_row (applications d2).
Proof.
  intros d1 d2.
  assert (H : portal_writes office_db d2).
  { eapply writes_more; [eapply writes_more; [apply writes_none|]|].
    - apply submits.
    - apply (decides d1 (Some "omkar") 5%N ∅ 5%N "app-1" "pending" "approved").
      simpl. tauto. }
  split; [exact H|]. split; [reflexivity|].
  exact (proj1 (portal_rows_are_counted office_db d2 H (List.Forall_nil _))).
Defined.

(** ** Callers without a session *)

(** X16. Without a session no request changes the database: every insert
    and every upload is refused, an update reaches no row, and the reads
    of roles and applications return nothing. *)
Theorem anonymous_changes_nothing (b : backend) (o : op) :
  be_session b = None ->
  be_db (snd (supabase o b)) = be_db b
  /\ (is_read o = false -> is_update o = false ->
      ev_ok (existT o (fst (supabase o b))) = false)
  /\ select_applications (be_db b) (be_session b) = []
  /\ (forall user_id,
        select_user_roles (be_db b) (be_session b) user_id = []).
Proof.
  intros Hs.
  assert (Hany : forall d : database, officer_or_admin d None = false)
    by reflexivity.
  assert (Hsel : forall d, select_applications d None = []).
  { intros d. unfold select_applications. apply filter_none.
    intros row _. reflexivity. }
  assert (Hown : forall d id, owns_application d None id = false).
  { intros d id. unfold owns_application. now rewrite Hsel. }
  repeat apply conj.
  - destruct o; cbn [supabase]; rewrite ?Hs; try reflexivity.
    all: try (unfold insert_application;
              destruct (parse_status _); reflexivity).
    all: try (unfold storage_upload; reflexivity).
    all: try (unfold insert_document, documents_insert_check; cbn;
              now rewrite Hown).
    all: try (unfold insert_payment, payments_insert_check;
              destruct (fits_decimal_10_2 _); [|reflexivity];
              destruct (parse_payment_status _); [|reflexivity];
              cbn; now rewrite Hown).
    unfold update_application.
    destruct (parse_status (upd_status u)); [|reflexivity].
    cbn [snd be_db with_db]. rewrite map_unchanged.
    + apply set_applications_same.
    + intros row _. unfold applications_update_using. rewrite Hany.
      now rewrite andb_false_r.
  - destruct o; cbn [is_read is_update]; try discriminate; intros _ _;
      cbn [supabase]; rewrite Hs.
    all: try (unfold insert_application;
              destruct (parse_status _); reflexivity).
    all: try (unfold storage_upload; reflexivity).
    all: try (unfold insert_document, documents_insert_check; cbn;
              now rewrite Hown).
    all: try (unfold insert_payment, payments_insert_check;
              destruct (fits_decimal_10_2 _); [|reflexivity];
              destruct (parse_payment_status _); [|reflexivity];
              cbn; now rewrite Hown).
  - rewrite Hs. apply Hsel.
  - intros user_id. rewrite Hs. unfold select_user_roles.
    rewrite filter_none; [reflexivity|]. intros r _. reflexivity.
Qed.

Lemma anonymous_changes_nothing_witness :
  let b := {| be_db := office_db; be_session := None; be_now := 9%N;
              be_uuids := fun _ => "app-1"; be_drawn := 0 |} in
  be_session b = None
  /\ be_db (snd (supabase (insert_application_op "asha" "svc-residence"
                                                 "pending") b))
     = office_db.
Proof.
  intros b. split; [reflexivity|].
  exact (proj1 (anonymous_changes_nothing b
                  (insert_application_op "asha" "svc-residence" "pending")
                  eq_refl)).
Defined.

(** ** What the officer's cards show of the applicant *)

(** X17. Under the profiles policy a caller reads the own profile only, so
    the officer dashboard shows every applicant other than the caller as
    "Unknown" with the address "N/A", whatever roles the caller holds; it
    shows name and address only on the caller's own application, when the
    caller has exactly one profile. *)
Theorem applicant_of_other_is_unknown (d : database) (uid : option uuid)
  (app : application) :
  (uid <> Some (citizen_id app) -> applicant_of d uid app = ("Unknown", "N/A"))
  /\ (forall p,
        uid = Some (citizen_id app) ->
        List.filter (fun q => profile_id q =? citizen_id app) (profiles d)
        = [p] ->
        applicant_of d uid app = (profile_full_name p, profile_email p)).
Proof.
  unfold applicant_of, select_profile. split.
  - intros Hne. rewrite filter_none; [reflexivity|].
    intros p _. unfold profiles_select_policy.
    destruct (uid_is uid (profile_id p)) eqn:E; [|reflexivity].
    apply uid_is_true in E.
    destruct (String.eqb_spec (profile_id p) (citizen_id app)) as [E'|_];
      [|reflexivity].
    congruence.
  - intros p -> Hp.
    rewrite (filter_ext
               (fun q => profiles_select_policy (Some (citizen_id app)) q
                         && (profile_id q =? citizen_id app))
               (fun q => profile_id q =? citizen_id app)).
    + now rewrite Hp.
    + intros q. unfold profiles_select_policy. simpl.
      rewrite (String.eqb_sym (citizen_id app)). apply andb_diag.
Qed.

(** ** Policies on [payments] *)

(** X18. A caller's insert of a completed payment succeeds exactly when
    the amount fits the column (DECIMAL(10, 2): below 10^8 in absolute
    value, 10^10 hundredths) and the referenced application exists and is
    the caller's own, whatever payments are recorded already; it then adds
    the one row. An amount that does not fit is refused with a numeric
    field overflow, also on the caller's own application. A refused insert
    leaves the database as it was. *)
Theorem payment_insert_policy (d : database) (caller : uuid)
  (application_id : uuid) (amount_ : money) (paid : timestamp) :
  let r := insert_payment d (Some caller) application_id amount_ "completed"
                          "mock" paid in
  (is_ok (fst r) = true
   <-> (- 10 ^ 10 < amount_ < 10 ^ 10)%Z
       /\ exists a, In a (applications d) /\ app_id a = application_id
                    /\ citizen_id a = caller)
  /\ (is_ok (fst r) = true ->
      snd r
      = set_payments
          (payments d
           ++ [{| pay_application_id := application_id;
                  transaction_id := None; amount := amount_;
                  pay_status := payment_completed;
                  payment_method := Some "mock"; paid_at := Some paid |}]) d)
  /\ (~ (- 10 ^ 10 < amount_ < 10 ^ 10)%Z ->
      fst r = Err "numeric field overflow")
  /\ (is_ok (fst r) = false -> snd r = d).
Proof.
  intros r. subst r. unfold insert_payment, payments_insert_check.
  assert (Hfit : fits_decimal_10_2 amount_ = true
                 <-> (- 10 ^ 10 < amount_ < 10 ^ 10)%Z).
  { unfold fits_decimal_10_2. rewrite Z.ltb_lt. lia. }
  destruct (fits_decimal_10_2 amount_); cbn [negb].
  - change (parse_payment_status "completed") with (Some payment_completed).
    cbv iota. cbn [pay_application_id]. rewrite <- owns_application_iff.
    destruct (owns_application d (Some caller) application_id); simpl.
    + repeat split; auto; try discriminate; try (now apply Hfit).
      intros H. contradict H. now apply Hfit.
    + repeat split; auto; try discriminate; try (now intros [_ H]).
      intros H. contradict H. now apply Hfit.
  - simpl. repeat split; auto; try discriminate.
    intros [H _]. apply Hfit in H. discriminate.
Qed.

Lemma payment_insert_policy_witness :
  let d := set_applications [pending_row] office_db in
  let pay amount_ :=
    insert_payment d (Some "asha") "app-2" amount_ "completed" "mock" 9%N in
  (is_ok (fst (pay 5000%Z)) = true
   /\ map (fun p => (pay_application_id p, amount p, pay_status p))
          (payments (snd (pay 5000%Z)))
      = [("app-2", 5000%Z, payment_completed)])
  /\ pay (10 ^ 10)%Z = (Err "numeric field overflow", d).
Proof.
  intros d pay.
  destruct (payment_insert_policy d "asha" "app-2" 5000%Z 9%N)
    as (Hiff & Hrow & _).
  assert (Hok : is_ok (fst (pay 5000%Z)) = true).
  { apply Hiff. split; [split; reflexivity|].
    exists pending_row. repeat split. now left. }
  split; [|reflexivity].
  split; [exact Hok|]. subst pay. cbv beta in *. rewrite (Hrow Hok).
  reflexivity.
Defined.

(** ** The status badge *)

Lemma occurrences_replace_first (c r : ascii) (text : string) :
  c <> r ->
  occurrences c (replace_first c r text) = Nat.pred (occurrences c text).
Proof.
  intros Hne. induction text as [|a rest IH]; [reflexivity|]. simpl.
  destruct (Ascii.eqb_spec a c) as [->|Hac]; simpl.
  - destruct (Ascii.eqb_spec r c); [congruence|reflexivity].
  - destruct (Ascii.eqb_spec a c); [congruence|]. exact IH.
Qed.

(** X19. The badge replaces the first underscore of the status only: a
    status with two underscores keeps the second. Of the five statuses,
    [additional_info_required] is shown as "ADDITIONAL INFO_REQUIRED"; the
    others are shown without an underscore. *)
Theorem badge_keeps_second_underscore (s : application_status) :
  occurrences "_" (replace_first "_" " " (status_name s))
  = Nat.pred (occurrences "_" (status_name s))
  /\ badge s
     = match s with
       | pending => "PENDING"
       | under_review => "UNDER REVIEW"
       | approved => "APPROVED"
       | rejected => "REJECTED"
       | additional_info_required => "ADDITIONAL INFO_REQUIRED"
       end
  /\ (has_char "_" (badge s) = true <-> s = additional_info_required).
Proof.
  split; [apply occurrences_replace_first; discriminate|].
  destruct s; (split; [reflexivity|]);
    change (has_char "_" (badge _)) with false
    || change (has_char "_" (badge _)) with true;
    split; intros H; first [discriminate H | reflexivity].
Qed.

(** ** Loading the service to apply for *)

Lemma filter_both {A} (p q : A -> bool) (l : list A) :
  List.filter (fun x => p x && q x) l = List.filter p (List.filter q l).
Proof.
  induction l as [|x l IH]; [reflexivity|]. cbn [List.filter].
  destruct (q x); cbn [List.filter].
  - rewrite andb_true_r. destruct (p x); now rewrite IH.
  - now rewrite andb_false_r.
Qed.

(** X20. A caller who is not an admin cannot load a service that is not
    active, nor one that does not exist: the page shows the error, goes to
    [/] and keeps no service, so a submission from it returns at once.
    An active service stored under its identifier once is loaded by any
    caller, an inactive one by an admin. *)
Theorem fetchService_hides_inactive (d : database) (uid : option uuid)
  (serviceId : uuid) :
  (has_role d uid admin = false ->
   (forall s, In s (services d) -> service_id s = serviceId ->
              is_active s = false) ->
   fetchService d uid serviceId
   = (None, [toast_error "Failed to load service details"; navigate "/";
             setLoading false])
   /\ forall getPublicUrl now files,
        handleSubmit getPublicUrl now (fst (fetchService d uid serviceId))
                     files = Ret [])
  /\ (forall s,
        List.filter (fun s' => service_id s' =? serviceId) (services d) = [s] ->
        is_active s = true \/ has_role d uid admin = true ->
        fetchService d uid serviceId = (Some s, [setLoading false])).
Proof.
  unfold fetchService, select_service. split.
  - intros Hadmin Hinactive. rewrite filter_none; [now split|].
    intros s Hin. unfold services_select_policy. rewrite Hadmin, orb_false_r.
    destruct (String.eqb_spec (service_id s) serviceId) as [E|_];
      [|apply andb_false_r].
    now rewrite (Hinactive s Hin E).
  - intros s Hs Hvisible.
    assert (Hin : In s (List.filter (fun s' => service_id s' =? serviceId)
                                    (services d))) by (rewrite Hs; now left).
    apply filter_In in Hin as [_ Hid].
    rewrite filter_both, Hs. cbn [List.filter].
    replace (services_select_policy d uid s) with true; [reflexivity|].
    symmetry. unfold services_select_policy. apply orb_true_iff. exact Hvisible.
Qed.

Lemma missing_document_blocks_submission_witness :
  let files : js_object file :=
    [("Aadhaar Card", {| file_name := "aadhaar.pdf"; file_bytes := "%PDF" |})]
  in
  (forall d, In d (required_documents residence_certificate) ->
             inherited d = false)
  /\ own_property files "Address Proof" = None
  /\ run supabase
         (handleSubmit public_url 9%N (Some residence_certificate) files)
         (signed_in "asha" office_db)
     = ([toast_error "Please upload: Address Proof"],
        signed_in "asha" office_db, []).
Proof.
  intros files.
  assert (H : forall d, In d (required_documents residence_certificate) ->
                        inherited d = false).
  { intros d [<-|[<-|[]]]; reflexivity. }
  split; [exact H|]. split; [reflexivity|].
  apply (missing_document_blocks_submission supabase
           (signed_in "asha" office_db) public_url 9%N residence_certificate
           files "Address Proof" H).
  - right. now left.
  - reflexivity.
Defined.

(** ** The citizen card of the selector *)

(** X22. For every signed-in user with two or more roles, the citizen card
    of the selector navigates to [/], from where the user is sent to the
    selector again: following the card never ends on [/citizen]. *)
Theorem citizen_card_leads_back (b : backend) (user_id : uuid) (fuel : nat) :
  be_session b = Some user_id ->
  (2 <= length (List.filter (fun r => String.eqb (ur_user_id r) user_id)
                            (user_roles (be_db b))))%nat ->
  navigated (redirectToRole "citizen") = Some "/"
  /\ land supabase (Datatypes.S (Datatypes.S fuel)) "/" b
     = Some "/select-role"
  /\ forall n, land supabase n "/" b <> Some "/citizen".
Proof.
  intros Hs Hlen. split; [reflexivity|]. split.
  - now apply (index_lands_on_selector b user_id fuel).
  - intros [|[|n]].
    + discriminate.
    + rewrite land_step_fst. change (on_mount (route "/")) with checkAuth.
      rewrite (checkAuth_fst b user_id Hs).
      rewrite route_by_roles_many by (now rewrite !length_map).
      discriminate.
    + rewrite (index_lands_on_selector b user_id n Hs Hlen). discriminate.
Qed.

Lemma citizen_card_leads_back_witness :
  let b := signed_in "meera" office_db in
  be_session b = Some "meera"
  /\ land supabase 2 "/" b = Some "/select-role".
Proof.
  intros b. split; [reflexivity|].
  assert (Hlen : (2 <= length (List.filter
                                 (fun r => String.eqb (ur_user_id r) "meera")
                                 (user_roles (be_db b))))%nat).
  { apply le_n. }
  exact (proj1 (proj2 (citizen_card_leads_back b "meera" 0 eq_refl Hlen))).
Defined.

(** ** The remarks field after an update *)

(** X23. An update that the backend accepts empties the remarks field of
    that application and of no other; a refused update leaves every field
    as typed. Hence a second update of the same application, with nothing
    typed in between, sends null and clears the remarks stored by the
    first. *)
Theorem second_update_clears_remarks (remarks_ : gmap string string)
  (now later : timestamp) (appId newStatus nextStatus : string)
  (b : backend) :
  let accepted :=
    is_ok (fst (update_application (be_db b) (be_session b) (be_now b) appId
                  (updateData remarks_ now appId newStatus))) in
  let remarks' :=
    remarks_after
      (fst (fst (run supabase
                     (handleUpdateStatus remarks_ now appId newStatus) b)))
      remarks_ in
  remarks' = (if accepted then <[appId := ""]> remarks_ else remarks_)
  /\ (accepted = true ->
      upd_remarks (updateData remarks' later appId nextStatus) = None)
  /\ accepted = match parse_status newStatus with
                | Some _ => true
                | None => false
                end.
Proof.
  intros accepted remarks'. subst accepted remarks'.
  rewrite handleUpdateStatus_run. cbv zeta. cbn [fst].
  unfold update_application. cbn [upd_status updateData].
  destruct (parse_status newStatus); cbn [fst is_ok].
  - unfold remarks_after. cbn [fold_left]. repeat split.
    intros _. unfold updateData. cbn [upd_remarks].
    now rewrite lookup_insert_eq.
  - repeat split. discriminate.
Qed.
